(** * pegasus-kickstart: the monitoring relay (monitoring.c)

    A shallow embedding of [src/tools/pegasus-kickstart/monitoring.c]:
    the configuration collector, the endpoint allocator, the broker
    forwarder, the relay loop with its aggregation buffer, and the
    start-up sequence.

    Conventions.
    - A C string ([char *]) is a [string]; a pointer that may be [NULL]
      is an [option string].
    - C [int]s (descriptors, return codes, counters, offsets) are [Z].
    - The process environment ([getenv]/[setenv]) is a finite map from
      names to values.
    - What the operating system and libcurl answer is not decided by the
      program: every function takes a record with the answers of the
      calls it makes, and returns, next to its result, the list of the
      calls it made, in order. *)

From Stdlib Require Import ZArith List Ascii String DecimalString Lia Bool.
From Stdlib Require DecimalPos DecimalZ.
From stdpp Require Import gmap strings.
Import ListNotations.

Open Scope string_scope.
Open Scope list_scope.
Open Scope Z_scope.

(** ** Text: the part of libc's string functions the file uses *)

Module Text.

(** The line feed, written [\n] in the source. *)
Definition LF : string := String (ascii_of_nat 10) EmptyString.

(** C string literals of the source that hold a double quote are written
    with an apostrophe in its place; [dq] puts the double quotes back. *)
Fixpoint dq (s : string) : string :=
  match s with
  | EmptyString => EmptyString
  | String c rest =>
      String (if Ascii.eqb c "'"%char then ascii_of_nat 34 else c) (dq rest)
  end.

(** The first [n] characters of [s]. *)
Fixpoint take (n : nat) (s : string) : string :=
  match n, s with
  | S n', String c rest => String c (take n' rest)
  | _, _ => EmptyString
  end.

(** [if ((pos = strchr(line, '\n')) != NULL) *pos = '\0';]
    the string ends at its first line feed. *)
Fixpoint cut_at_newline (s : string) : string :=
  match s with
  | EmptyString => EmptyString
  | String c rest =>
      if Ascii.eqb c (ascii_of_nat 10) then EmptyString
      else String c (cut_at_newline rest)
  end.

(** [strstr(haystack, needle)]: the offset of the first occurrence. *)
Definition strstr (haystack needle : string) : option nat :=
  String.index 0 needle haystack.

(** An argument of a [printf]-style call. *)
Inductive printf_arg :=
| ArgS (s : option string)   (* for %s; [None] is a NULL pointer *)
| ArgD (d : Z).              (* for %d *)

(** What glibc prints for [%s] with a NULL pointer. *)
Definition null_text : string := "(null)".

Definition render (a : printf_arg) : string :=
  match a with
  | ArgS (Some s) => s
  | ArgS None => null_text
  | ArgD d => NilZero.string_of_int (Z.to_int d)
  end.

(** The text a format with [%s] and [%d] directives produces. *)
Fixpoint format (fmt : string) (args : list printf_arg) : string :=
  match fmt with
  | EmptyString => EmptyString
  | String c rest =>
      if Ascii.eqb c "%"%char then
        match rest with
        | String d rest' =>
            if (Ascii.eqb d "s"%char || Ascii.eqb d "d"%char)%bool then
              match args with
              | a :: args' => render a +:+ format rest' args'
              | [] => format rest' []
              end
            else String c (String d (format rest' args))
        | EmptyString => String c EmptyString
        end
      else String c (format rest args)
  end.

(** [sprintf(buf, fmt, ...)]: no bound; the destination, taken to be large
    enough, holds the whole text. *)
Definition sprintf (fmt : string) (args : list printf_arg) : string :=
  format fmt args.

(** [snprintf(buf, size, fmt, ...)] for [size >= 1]: at most [size - 1]
    characters are stored; the value returned is the length the whole
    text would have had. *)
Definition snprintf (size : nat) (fmt : string) (args : list printf_arg)
  : string * Z :=
  let full := format fmt args in
  (take (size - 1) full, Z.of_nat (String.length full)).

(** Writing the C string [w] at [buf + offset], seen through the C string
    that starts at [buf]: a write at or before the terminator of [buf]
    replaces everything from [offset] on, a write past the terminator
    is not seen. *)
Definition write_at (buf : string) (offset : Z) (w : string) : string :=
  if (0 <=? offset) && (offset <=? Z.of_nat (String.length buf))
  then take (Z.to_nat offset) buf +:+ w
  else buf.

End Text.
Import Text.

(** ** Constants of the platform headers *)

(** [POLLIN] of <poll.h>, [EINTR] of <errno.h>, [CURLE_OK] of <curl/curl.h>. *)
Definition POLLIN : Z := 1.
Definition EINTR : Z := 4.
Definition CURLE_OK : Z := 0.

(** [#define MSG_AGGR_FACTOR 1] *)
Definition MSG_AGGR_FACTOR : Z := 1.

(** ** Data *)

Record MonitoringThreadContext := {
  url : option string;
  credentials : option string;
  wf_label : option string;
  wf_uuid : option string;
  dag_job_id : option string;
  condor_job_id : option string;
  xformation : option string;
  task_id : option string;
  socket : Z
}.

(** [calloc(sizeof(MonitoringThreadContext), 1)] *)
Definition calloc_context : MonitoringThreadContext :=
  {| url := None; credentials := None; wf_label := None; wf_uuid := None;
     dag_job_id := None; condor_job_id := None; xformation := None;
     task_id := None; socket := 0 |}.

(** An argument of [printerr]: a [printf] argument, or the text of an error
    code, which is libc's or libcurl's to choose. *)
Inductive log_arg :=
| Arg (a : printf_arg)
| Strerror (errno : Z)
| CurlEasyStrerror (code : Z).

(** The options set on the curl handle before the request is performed. *)
Record curl_request := {
  CURLOPT_URL : option string;
  CURLOPT_USERPWD : option string;
  CURLOPT_POST : Z;
  CURLOPT_SSL_VERIFYPEER : Z;
  CURLOPT_SSL_VERIFYHOST : Z;
  CURLOPT_HTTPHEADER : list string;
  CURLOPT_POSTFIELDS : string
}.

(** The calls the program makes to the world outside it. *)
Inductive action :=
| Printerr (fmt : string) (args : list log_arg)
| SysSocket (ret : Z)
| SysBind (fd ret : Z)
| SysListen (fd backlog ret : Z)
| SysGetsockname (fd ret : Z)
| SysGethostname (ret : Z)
| SysClose (fd : Z)
| SysPoll (ret : Z)
| SysAccept (fd ret : Z)
| SysRecv (fd ret : Z)
| SysPipe (ret : Z)
| SysFcntl (fd ret : Z)
| PthreadCreate (ctx : MonitoringThreadContext) (ret : Z)
| PthreadExit
| CurlGlobalInit
| CurlGlobalCleanup
| CurlEasyInit (ok : bool)
| CurlEasyPerform (req : curl_request) (res : Z)
| CurlEasyCleanup
| ReleaseMonitoringContext.

(** ** Configuration collector *)

(** The answer of [getenv] for a name is the value the environment maps it
    to; [NULL] when it maps it to nothing. *)
Definition getenv (env : gmap string string) (name : string) : option string :=
  env !! name.

(** [setenv(name, value, 1)] *)
Definition setenv (env : gmap string string) (name value : string)
  : gmap string string :=
  <[name := value]> env.

Definition not_specified (name : string) : action :=
  Printerr ("ERROR: " +:+ name +:+ " not specified" +:+ LF) [].

Definition set_url (ctx : MonitoringThreadContext) (v : option string) :=
  {| url := v; credentials := credentials ctx; wf_label := wf_label ctx;
     wf_uuid := wf_uuid ctx; dag_job_id := dag_job_id ctx;
     condor_job_id := condor_job_id ctx; xformation := xformation ctx;
     task_id := task_id ctx; socket := socket ctx |}.

Definition set_credentials (ctx : MonitoringThreadContext) (v : option string) :=
  {| url := url ctx; credentials := v; wf_label := wf_label ctx;
     wf_uuid := wf_uuid ctx; dag_job_id := dag_job_id ctx;
     condor_job_id := condor_job_id ctx; xformation := xformation ctx;
     task_id := task_id ctx; socket := socket ctx |}.

Definition set_wf_label (ctx : MonitoringThreadContext) (v : option string) :=
  {| url := url ctx; credentials := credentials ctx; wf_label := v;
     wf_uuid := wf_uuid ctx; dag_job_id := dag_job_id ctx;
     condor_job_id := condor_job_id ctx; xformation := xformation ctx;
     task_id := task_id ctx; socket := socket ctx |}.

Definition set_wf_uuid (ctx : MonitoringThreadContext) (v : option string) :=
  {| url := url ctx; credentials := credentials ctx; wf_label := wf_label ctx;
     wf_uuid := v; dag_job_id := dag_job_id ctx;
     condor_job_id := condor_job_id ctx; xformation := xformation ctx;
     task_id := task_id ctx; socket := socket ctx |}.

Definition set_dag_job_id (ctx : MonitoringThreadContext) (v : option string) :=
  {| url := url ctx; credentials := credentials ctx; wf_label := wf_label ctx;
     wf_uuid := wf_uuid ctx; dag_job_id := v;
     condor_job_id := condor_job_id ctx; xformation := xformation ctx;
     task_id := task_id ctx; socket := socket ctx |}.

Definition set_condor_job_id (ctx : MonitoringThreadContext) (v : option string) :=
  {| url := url ctx; credentials := credentials ctx; wf_label := wf_label ctx;
     wf_uuid := wf_uuid ctx; dag_job_id := dag_job_id ctx;
     condor_job_id := v; xformation := xformation ctx;
     task_id := task_id ctx; socket := socket ctx |}.

Definition set_xformation (ctx : MonitoringThreadContext) (v : option string) :=
  {| url := url ctx; credentials := credentials ctx; wf_label := wf_label ctx;
     wf_uuid := wf_uuid ctx; dag_job_id := dag_job_id ctx;
     condor_job_id := condor_job_id ctx; xformation := v;
     task_id := task_id ctx; socket := socket ctx |}.

Definition set_task_id (ctx : MonitoringThreadContext) (v : option string) :=
  {| url := url ctx; credentials := credentials ctx; wf_label := wf_label ctx;
     wf_uuid := wf_uuid ctx; dag_job_id := dag_job_id ctx;
     condor_job_id := condor_job_id ctx; xformation := xformation ctx;
     task_id := v; socket := socket ctx |}.

Definition set_socket (ctx : MonitoringThreadContext) (fd : Z) :=
  {| url := url ctx; credentials := credentials ctx; wf_label := wf_label ctx;
     wf_uuid := wf_uuid ctx; dag_job_id := dag_job_id ctx;
     condor_job_id := condor_job_id ctx; xformation := xformation ctx;
     task_id := task_id ctx; socket := fd |}.

(** [initialize_monitoring_context]: the value returned, the context as the
    function leaves it, and what it printed. *)
Definition initialize_monitoring_context
  (env : gmap string string) (ctx : MonitoringThreadContext)
  : Z * MonitoringThreadContext * list action :=
  match getenv env "KICKSTART_MON_ENDPOINT_URL" with
  | None => (-1, ctx, [not_specified "KICKSTART_MON_ENDPOINT_URL"])
  | Some envptr =>
  let ctx := set_url ctx (Some envptr) in
  match getenv env "KICKSTART_MON_ENDPOINT_CREDENTIALS" with
  | None => (-1, ctx, [not_specified "KICKSTART_MON_ENDPOINT_CREDENTIALS"])
  | Some envptr =>
  let ctx := set_credentials ctx (Some envptr) in
  match getenv env "PEGASUS_WF_UUID" with
  | None => (-1, ctx, [not_specified "PEGASUS_WF_UUID"])
  | Some envptr =>
  let ctx := set_wf_uuid ctx (Some envptr) in
  match getenv env "PEGASUS_WF_LABEL" with
  | None => (-1, ctx, [not_specified "PEGASUS_WF_LABEL"])
  | Some envptr =>
  let ctx := set_wf_label ctx (Some envptr) in
  match getenv env "PEGASUS_DAG_JOB_ID" with
  | None => (-1, ctx, [not_specified "PEGASUS_DAG_JOB_ID"])
  | Some envptr =>
  let ctx := set_dag_job_id ctx (Some envptr) in
  match getenv env "CONDOR_JOBID" with
  | None => (-1, ctx, [not_specified "CONDOR_JOBID"])
  | Some envptr =>
  let ctx := set_condor_job_id ctx (Some envptr) in
  let ctx := set_xformation ctx (getenv env "PEGASUS_XFORMATION") in
  let ctx := set_task_id ctx (getenv env "PEGASUS_TASK_ID") in
  (0, ctx, [])
  end end end end end end.

(** ** Broker forwarder *)

(** What libcurl answers during one call of [send_msg_to_mq]: whether
    [curl_easy_init] gave a handle, and the code of [curl_easy_perform]. *)
Record curl_answers := {
  curl_handle : bool;
  curl_result : Z
}.

Definition envelope_format : string :=
  dq "{'properties':{},'routing_key':'%s','payload':'%s','payload_encoding':'string'}".

(** [send_msg_to_mq]: the calls made. [payload] is allocated
    [strlen(msg_buff) + BUFSIZ] bytes, which hold the text [sprintf] writes
    as long as the fixed part of the envelope and the UUID take less than
    [BUFSIZ]; the body of the answer is handed to [write_callback], which
    drops it. *)
Definition send_msg_to_mq
  (c : curl_answers) (msg_buff : string) (ctx : MonitoringThreadContext)
  : list action :=
  if curl_handle c then
    let payload :=
      sprintf envelope_format [ArgS (wf_uuid ctx); ArgS (Some msg_buff)] in
    let res := curl_result c in
    [CurlEasyInit true;
     CurlEasyPerform
       {| CURLOPT_URL := url ctx;
          CURLOPT_USERPWD := credentials ctx;
          CURLOPT_POST := 1;
          CURLOPT_SSL_VERIFYPEER := 0;
          CURLOPT_SSL_VERIFYHOST := 0;
          CURLOPT_HTTPHEADER := ["Content-Type: application/json"];
          CURLOPT_POSTFIELDS := payload |} res]
    ++ (if res =? CURLE_OK then []
        else [Printerr ("[mon-thread] an error occured while sending measurement: %s" +:+ LF)
                [CurlEasyStrerror res]])
    ++ [CurlEasyCleanup]
  else
    [CurlEasyInit false;
     Printerr ("[mon-thread] we couldn't initialize curl" +:+ LF) []].

(** ** Endpoint allocator *)

(** What the operating system answers to the calls of
    [create_ephemeral_endpoint]; [ep_port] is the port read back, in host
    byte order, [ep_errno] the value of [errno] after a failed call. *)
Record endpoint_answers := {
  socket_ret : Z;
  bind_ret : Z;
  listen_ret : Z;
  getsockname_ret : Z;
  gethostname_ret : Z;
  ep_hostname : string;
  ep_port : Z;
  ep_errno : Z
}.

(** [create_ephemeral_endpoint]: the value returned, the two out-parameters
    as the function leaves them, and the calls made. *)
Definition create_ephemeral_endpoint
  (w : endpoint_answers) (kickstart_hostname : string) (kickstart_port : Z)
  : Z * string * Z * list action :=
  let listenfd := socket_ret w in
  if listenfd <? 0 then
    (-1, kickstart_hostname, kickstart_port,
     [SysSocket listenfd;
      Printerr ("ERROR[socket]: %s" +:+ LF) [Strerror (ep_errno w)]])
  else if bind_ret w <? 0 then
    (-1, kickstart_hostname, kickstart_port,
     [SysSocket listenfd; SysBind listenfd (bind_ret w);
      Printerr ("ERROR[bind]: %s" +:+ LF) [Strerror (ep_errno w)];
      SysClose listenfd])
  else if listen_ret w <? 0 then
    (-1, kickstart_hostname, kickstart_port,
     [SysSocket listenfd; SysBind listenfd (bind_ret w);
      SysListen listenfd 1 (listen_ret w);
      Printerr ("ERROR[listen]: %s" +:+ LF) [Strerror (ep_errno w)];
      SysClose listenfd])
  else if getsockname_ret w =? -1 then
    (-1, kickstart_hostname, kickstart_port,
     [SysSocket listenfd; SysBind listenfd (bind_ret w);
      SysListen listenfd 1 (listen_ret w);
      SysGetsockname listenfd (getsockname_ret w);
      Printerr ("ERROR[getsockname]: %s" +:+ LF) [Strerror (ep_errno w)];
      SysClose listenfd])
  else if negb (gethostname_ret w =? 0) then
    (-1, kickstart_hostname, kickstart_port,
     [SysSocket listenfd; SysBind listenfd (bind_ret w);
      SysListen listenfd 1 (listen_ret w);
      SysGetsockname listenfd (getsockname_ret w);
      SysGethostname (gethostname_ret w);
      Printerr ("ERROR[gethostname]: %s" +:+ LF) [Strerror (ep_errno w)]])
  else
    (listenfd, ep_hostname w, ep_port w,
     [SysSocket listenfd; SysBind listenfd (bind_ret w);
      SysListen listenfd 1 (listen_ret w);
      SysGetsockname listenfd (getsockname_ret w);
      SysGethostname (gethostname_ret w);
      Printerr ("Host: %s Port: %d" +:+ LF)
        [Arg (ArgS (Some (ep_hostname w))); Arg (ArgD (ep_port w))]]).

(** ** Relay loop *)

(** The locals of [monitoring_thread_func] that live across iterations.
    [aggr_msg_buffer] is the C string that starts at the buffer's first
    byte: what [send_msg_to_mq] reads when it is handed the buffer. *)
Record loop_state := {
  msg_counter : Z;
  aggr_msg_buffer_offset : Z;
  aggr_msg_buffer : string
}.

(** What the world answers during one iteration of the loop: the value of
    [poll] and the [revents] of the signal pipe and of the socket, the value
    of [accept], the value of [recv] and the C string found in [line] after
    it, libcurl's answers should the batch be sent, and [errno] after a
    failed call. *)
Record iteration := {
  poll_ret : Z;
  pipe_revents : Z;
  socket_revents : Z;
  accept_ret : Z;
  recv_ret : Z;
  recv_line : string;
  curl : curl_answers;
  errno : Z
}.

(** How an iteration ends: at [next:] and the top of the loop again, or at
    a [break]. *)
Inductive flow := Next | Break.

Definition enriched_format : string :=
  "%s wf_uuid=%s wf_label=%s dag_job_id=%s condor_job_id=%s xformation=%s task_id=%s".

Definition aggregate_format : string := "%s:delim1:".

Section Relay.

(** [BUFSIZ] of <stdio.h>. *)
Variable BUFSIZ : nat.

(** [snprintf(enriched_line, BUFSIZ, ...)] *)
Definition enrich (ctx : MonitoringThreadContext) (line : string) : string :=
  fst (snprintf BUFSIZ enriched_format
         [ArgS (Some line); ArgS (wf_uuid ctx); ArgS (wf_label ctx);
          ArgS (dag_job_id ctx); ArgS (condor_job_id ctx);
          ArgS (xformation ctx); ArgS (task_id ctx)]).

(** One iteration of [while (1)]: how it ends, the locals after it, and
    the calls made. *)
Definition loop_body
  (ctx : MonitoringThreadContext) (st : loop_state) (w : iteration)
  : flow * loop_state * list action :=
  if poll_ret w <=? 0 then
    (Break, st,
     [SysPoll (poll_ret w);
      Printerr ("[mon-thread] Error polling socket and pipe: %s" +:+ LF)
        [Strerror (errno w)]])
  else if negb (Z.land (pipe_revents w) POLLIN =? 0) then
    (Break, st,
     SysPoll (poll_ret w) ::
     (if negb (Z.land (socket_revents w) POLLIN =? 0) then
        [Printerr ("[mon-thread] WARNING: Oh no, we are leaving some clients behind!" +:+ LF) []]
      else []))
  else
    let incoming_socket := accept_ret w in
    let accepted := [SysPoll (poll_ret w); SysAccept (socket ctx) incoming_socket] in
    if incoming_socket <? 0 then
      let report :=
        Printerr ("[mon-thread] ERROR[accept]: %s" +:+ LF) [Strerror (errno w)] in
      if errno w =? EINTR then
        (Next, st, accepted ++ [report; SysClose incoming_socket])
      else
        (Break, st, accepted ++ [report])
    else
      let num_bytes := recv_ret w in
      let received := accepted ++ [SysRecv incoming_socket num_bytes] in
      if num_bytes <? 0 then
        (Next, st,
         received ++
         [Printerr ("[mon-thread] ERROR[recv]: %s" +:+ LF) [Strerror (errno w)];
          SysClose incoming_socket])
      else
        let line := cut_at_newline (recv_line w) in
        match strstr line "ts=" with
        | Some O =>
            let enriched_line := enrich ctx line in
            let '(written, n) :=
              snprintf BUFSIZ aggregate_format [ArgS (Some enriched_line)] in
            let buffer :=
              write_at (aggr_msg_buffer st) (aggr_msg_buffer_offset st) written in
            if (n <? 0) || (n >? Z.of_nat BUFSIZ) then
              (Next,
               {| msg_counter := msg_counter st;
                  aggr_msg_buffer_offset := aggr_msg_buffer_offset st;
                  aggr_msg_buffer := buffer |},
               received ++
               [Printerr ("[mon-thread] Error aggregating messages: snprintf: %s" +:+ LF)
                  [Strerror (errno w)];
                SysClose incoming_socket])
            else
              let counter := msg_counter st + 1 in
              let offset := aggr_msg_buffer_offset st + n in
              if counter =? MSG_AGGR_FACTOR then
                (Next,
                 {| msg_counter := 0;
                    aggr_msg_buffer_offset := 0;
                    aggr_msg_buffer := EmptyString |},
                 received ++ send_msg_to_mq (curl w) buffer ctx
                 ++ [SysClose incoming_socket])
              else
                (Next,
                 {| msg_counter := counter;
                    aggr_msg_buffer_offset := offset;
                    aggr_msg_buffer := buffer |},
                 received ++ [SysClose incoming_socket])
        | _ =>
            (Next, st,
             received ++
             [Printerr ("[mon-thread] ERROR: Message did not start with 'ts=': " +:+ LF +:+ "%s" +:+ LF)
                [Arg (ArgS (Some line))];
              SysClose incoming_socket])
        end.

(** The loop, run on the answers of the world to its successive iterations.
    [Next]: the answers ran out with the loop back in [poll]. [Break]: the
    loop was left by a [break]. In both cases, with the locals as they were
    at that point. *)
Fixpoint monitoring_loop
  (ctx : MonitoringThreadContext) (st : loop_state) (ws : list iteration)
  : flow * loop_state * list action :=
  match ws with
  | [] => (Next, st, [])
  | w :: ws' =>
      match loop_body ctx st w with
      | (Break, st', t) => (Break, st', t)
      | (Next, st', t) =>
          let '(f, st'', t') := monitoring_loop ctx st' ws' in
          (f, st'', t ++ t')
      end
  end.

(** After the loop: the last batch, then the resources. *)
Definition drain
  (ctx : MonitoringThreadContext) (st : loop_state) (c : curl_answers)
  : list action :=
  (if msg_counter st >? 0 then
     Printerr ("[mon-thread] Sending final aggregated message with %d message(s)..." +:+ LF)
       [Arg (ArgD (msg_counter st))]
     :: send_msg_to_mq c (aggr_msg_buffer st) ctx
   else [])
  ++ [Printerr ("[mon-thread] Monitoring thread exiting..." +:+ LF) [];
      SysClose (socket ctx);
      CurlGlobalCleanup;
      ReleaseMonitoringContext;
      PthreadExit].

Definition announce (ctx : MonitoringThreadContext) : list action :=
  [Printerr ("[mon-thread] url: %s" +:+ LF) [Arg (ArgS (url ctx))];
   Printerr ("[mon-thread] wf uuid: %s" +:+ LF) [Arg (ArgS (wf_uuid ctx))];
   Printerr ("[mon-thread] wf label: %s" +:+ LF) [Arg (ArgS (wf_label ctx))];
   Printerr ("[mon-thread] dag job id: %s" +:+ LF) [Arg (ArgS (dag_job_id ctx))];
   Printerr ("[mon-thread] condor job id: %s" +:+ LF) [Arg (ArgS (condor_job_id ctx))];
   Printerr ("[mon-thread] xformation: %s" +:+ LF) [Arg (ArgS (xformation ctx))];
   Printerr ("[mon-thread] task id: %s" +:+ LF) [Arg (ArgS (task_id ctx))];
   CurlGlobalInit;
   Printerr ("[mon-thread] Starting monitoring loop..." +:+ LF) []].

(** [monitoring_thread_func]. [stack] is what the uninitialised
    [aggr_msg_buffer] holds when the thread starts, [ws] the world's answers
    to the iterations, [last] libcurl's answers to the final send. The
    boolean tells whether the thread reached [pthread_exit]. *)
Definition monitoring_thread_func
  (ctx : MonitoringThreadContext) (stack : string)
  (ws : list iteration) (last : curl_answers)
  : bool * list action :=
  let st0 :=
    {| msg_counter := 0; aggr_msg_buffer_offset := 0; aggr_msg_buffer := stack |} in
  match monitoring_loop ctx st0 ws with
  | (Break, st, t) => (true, announce ctx ++ t ++ drain ctx st last)
  | (Next, _, t) => (false, announce ctx ++ t)
  end.

(** ** Lifecycle: start *)

(** What the world answers to the calls of [start_monitoring_thread]. *)
Record start_answers := {
  endpoint : endpoint_answers;
  stack_host : string;
  stack_port : Z;
  pid : Z;
  pipe_ret : Z;
  pipe_read_end : Z;
  pipe_write_end : Z;
  fcntl_read_ret : Z;
  fcntl_write_ret : Z;
  pthread_create_ret : Z;
  start_errno : Z
}.

(** [snprintf(envvar, BUFSIZ, "%d", v)] *)
Definition decimal (v : Z) : string :=
  fst (snprintf BUFSIZ "%d" [ArgD v]).

(** The five [setenv] calls that publish the endpoint. *)
Definition publish
  (env : gmap string string) (interval pid : Z) (host : string) (port : Z)
  : gmap string string :=
  let env := setenv env "KICKSTART_MON" "enabled" in
  let env := setenv env "KICKSTART_MON_INTERVAL" (decimal interval) in
  let env := setenv env "KICKSTART_MON_PID" (decimal pid) in
  let env := setenv env "KICKSTART_MON_HOST" host in
  setenv env "KICKSTART_MON_PORT" (decimal port).

(** [start_monitoring_thread]: the value returned, the environment after
    the call, and the calls made. *)
Definition start_monitoring_thread
  (interval : Z) (w : start_answers) (env : gmap string string)
  : Z * gmap string string * list action :=
  let '(socket, socket_host, socket_port, t_endpoint) :=
    create_ephemeral_endpoint (endpoint w) (stack_host w) (stack_port w) in
  if socket <? 0 then
    (-1, env,
     t_endpoint ++
     [Printerr ("Couldn't find an endpoint for communication with kickstart" +:+ LF) []])
  else
    let env := publish env interval (pid w) socket_host socket_port in
    let '(rc, ctx, t_init) := initialize_monitoring_context env calloc_context in
    if rc <? 0 then (-1, env, t_endpoint ++ t_init)
    else
      let ctx := set_socket ctx socket in
      let rc := pipe_ret w in
      let t_pipe := t_endpoint ++ t_init ++ [SysPipe rc] in
      if rc <? 0 then
        (rc, env,
         t_pipe ++
         [Printerr ("ERROR: Unable to create signal pipe: %s" +:+ LF)
            [Strerror (start_errno w)]])
      else
        let cloexec (fd rc : Z) :=
          SysFcntl fd rc ::
          (if rc <? 0 then
             [Printerr ("WARNING: Unable to set CLOEXEC on pipe: %s" +:+ LF)
                [Strerror (start_errno w)]]
           else []) in
        let t_flags :=
          t_pipe ++ cloexec (pipe_read_end w) (fcntl_read_ret w)
          ++ cloexec (pipe_write_end w) (fcntl_write_ret w) in
        let rc := pthread_create_ret w in
        let t_thread := t_flags ++ [PthreadCreate ctx rc] in
        if negb (rc =? 0) then
          (rc, env,
           t_thread ++
           [Printerr ("ERROR: return code from pthread_create() is %d: %s" +:+ LF)
              [Arg (ArgD rc); Strerror (start_errno w)]])
        else (0, env, t_thread).

End Relay.

(** ** Reading a trace *)

Definition is_forward_call (a : action) : bool :=
  match a with CurlEasyInit _ => true | _ => false end.

(** The number of calls of [send_msg_to_mq] in a trace: each call starts
    with its [curl_easy_init]. *)
Definition forward_calls (t : list action) : nat :=
  List.length (List.filter is_forward_call t).

Definition is_curl (a : action) : bool :=
  match a with
  | CurlEasyInit _ | CurlEasyPerform _ _ | CurlEasyCleanup => true
  | _ => false
  end.

(** What a trace shows of the traffic with the broker. *)
Definition curl_calls (t : list action) : list action :=
  List.filter is_curl t.

(** The bodies of the requests performed. *)
Fixpoint posted (t : list action) : list string :=
  match t with
  | [] => []
  | CurlEasyPerform req _ :: t' => CURLOPT_POSTFIELDS req :: posted t'
  | _ :: t' => posted t'
  end.

Definition is_accept (a : action) : bool :=
  match a with SysAccept _ _ => true | _ => false end.

Definition is_close_of (fd : Z) (a : action) : bool :=
  match a with SysClose fd' => fd' =? fd | _ => false end.

Definition is_thread_start (a : action) : bool :=
  match a with PthreadCreate _ _ => true | _ => false end.

(** ** The words of the specification *)

Definition delimiter : string := ":delim1:".

(** The text of a batch as the loop builds it: every record followed by
    the delimiter. *)
Fixpoint batch_text (records : list string) : string :=
  match records with
  | [] => EmptyString
  | r :: rest => r +:+ delimiter +:+ batch_text rest
  end.

(** The specification's words, "joined by a fixed delimiter token": the
    delimiter stands between neighbouring records only. *)
Fixpoint joined (records : list string) : string :=
  match records with
  | [] => EmptyString
  | [r] => r
  | r :: rest => r +:+ delimiter +:+ joined rest
  end.

(** The text [%s] gives for a field of the context. *)
Definition shown (field : option string) : string := render (ArgS field).

(** The six tokens appended to a line, in their order. *)
Definition identity_tokens (ctx : MonitoringThreadContext) : string :=
  " wf_uuid=" +:+ shown (wf_uuid ctx)
  +:+ " wf_label=" +:+ shown (wf_label ctx)
  +:+ " dag_job_id=" +:+ shown (dag_job_id ctx)
  +:+ " condor_job_id=" +:+ shown (condor_job_id ctx)
  +:+ " xformation=" +:+ shown (xformation ctx)
  +:+ " task_id=" +:+ shown (task_id ctx).

(** The body of the request to the broker. *)
Definition envelope (routing_key payload : string) : string :=
  dq "{'properties':{},'routing_key':'" +:+ routing_key
  +:+ dq "','payload':'" +:+ payload
  +:+ dq "','payload_encoding':'string'}".

Definition required_keys : list string :=
  ["KICKSTART_MON_ENDPOINT_URL"; "KICKSTART_MON_ENDPOINT_CREDENTIALS";
   "PEGASUS_WF_UUID"; "PEGASUS_WF_LABEL"; "PEGASUS_DAG_JOB_ID"; "CONDOR_JOBID"].

(** The first required key the environment does not define. *)
Definition first_missing (env : gmap string string) : option string :=
  List.find (fun name => match getenv env name with None => true | Some _ => false end)
    required_keys.

(** ** Sample data *)

(** [BUFSIZ] as glibc defines it. *)
Definition glibc_BUFSIZ : nat := Z.to_nat 8192.

(** An environment with the six required values and neither optional one. *)
Definition required_only : gmap string string :=
  list_to_map
    [("KICKSTART_MON_ENDPOINT_URL", "https://broker:15671/api/exchanges/monitoring/publish");
     ("KICKSTART_MON_ENDPOINT_CREDENTIALS", "guest:guest");
     ("PEGASUS_WF_UUID", "7a3c");
     ("PEGASUS_WF_LABEL", "montage");
     ("PEGASUS_DAG_JOB_ID", "mProject_ID01");
     ("CONDOR_JOBID", "42.0")].

(** The same with both optional values. *)
Definition fully_specified : gmap string string :=
  <["PEGASUS_XFORMATION" := "mProject"]>
    (<["PEGASUS_TASK_ID" := "ID01"]> required_only).

(** The context [initialize_monitoring_context] builds from an environment,
    with [fd] as its socket. *)
Definition context_of (env : gmap string string) (fd : Z) : MonitoringThreadContext :=
  set_socket (snd (fst (initialize_monitoring_context env calloc_context))) fd.

Definition curl_fine : curl_answers := {| curl_handle := true; curl_result := 0 |}.

(** An iteration in which a client connects on descriptor 5 and [line]
    holds the C string [text] after [recv]: what a client that sends [text]
    brings about when [text] ends with a line feed. What [line] holds after
    other bytes is given by [line_step]. *)
Definition client_sends (text : string) : iteration :=
  {| poll_ret := 1; pipe_revents := 0; socket_revents := 1;
     accept_ret := 5; recv_ret := Z.of_nat (String.length text);
     recv_line := text; curl := curl_fine; errno := 0 |}.

(** An iteration in which the signal pipe is readable, with or without a
    client waiting on the socket. *)
Definition shutdown_signalled (client_waiting : bool) : iteration :=
  {| poll_ret := if client_waiting then 2 else 1;
     pipe_revents := 1; socket_revents := if client_waiting then 1 else 0;
     accept_ret := 5; recv_ret := 0; recv_line := EmptyString;
     curl := curl_fine; errno := 0 |}.

(** The locals when the loop is entered, [stack] being what the buffer
    holds then. *)
Definition loop_entry (stack : string) : loop_state :=
  {| msg_counter := 0; aggr_msg_buffer_offset := 0; aggr_msg_buffer := stack |}.

Definition emptied : loop_state :=
  {| msg_counter := 0; aggr_msg_buffer_offset := 0; aggr_msg_buffer := EmptyString |}.

(** [n] times the character [c]. *)
Fixpoint filler (n : nat) (c : ascii) : string :=
  match n with
  | O => EmptyString
  | S n' => String c (filler n' c)
  end.

(** A heartbeat line as a client sends it. *)
Definition heartbeat : string := "ts=1476 event=heartbeat".

(** A line that begins with [ts=] and is 8077 characters long: with the
    107 characters of the tokens of [fully_specified], a record of
    [glibc_BUFSIZ - 8] characters. *)
Definition long_line : string := "ts=" +:+ filler (Z.to_nat 8074) "x".

(** The operating system grants every call of the endpoint allocator. *)
Definition endpoint_granted : endpoint_answers :=
  {| socket_ret := 3; bind_ret := 0; listen_ret := 0; getsockname_ret := 0;
     gethostname_ret := 0; ep_hostname := "worker-17"; ep_port := 40123;
     ep_errno := 0 |}.

(** [socket], [bind], [listen] and [getsockname] succeed on descriptor 3,
    then [gethostname] fails (with ENAMETOOLONG). *)
Definition hostname_fails : endpoint_answers :=
  {| socket_ret := 3; bind_ret := 0; listen_ret := 0; getsockname_ret := 0;
     gethostname_ret := -1; ep_hostname := EmptyString; ep_port := 40123;
     ep_errno := 36 |}.

(** [socket] and [bind] succeed on descriptor 3, then [listen] fails (with
    EADDRINUSE). *)
Definition listen_fails : endpoint_answers :=
  {| socket_ret := 3; bind_ret := 0; listen_ret := -1; getsockname_ret := 0;
     gethostname_ret := 0; ep_hostname := EmptyString; ep_port := 0;
     ep_errno := 98 |}.

(** Every call of [start_monitoring_thread] is granted. *)
Definition start_granted : start_answers :=
  {| endpoint := endpoint_granted; stack_host := EmptyString; stack_port := 0;
     pid := 4242; pipe_ret := 0; pipe_read_end := 4; pipe_write_end := 5;
     fcntl_read_ret := 0; fcntl_write_ret := 0; pthread_create_ret := 0;
     start_errno := 0 |}.

(** The warning of an iteration that leaves on the shutdown signal with a
    connection waiting. *)
Definition clients_left_behind : action :=
  Printerr ("[mon-thread] WARNING: Oh no, we are leaving some clients behind!" +:+ LF) [].

(** The last calls of the thread: the listening socket is closed, libcurl
    and the context are released, the thread ends. *)
Definition released (ctx : MonitoringThreadContext) : list action :=
  [SysClose (socket ctx); CurlGlobalCleanup; ReleaseMonitoringContext; PthreadExit].

(** [required_only] without the workflow UUID. *)
Definition uuid_missing : gmap string string :=
  delete "PEGASUS_WF_UUID" required_only.

(** The names under which the endpoint is published. *)
Definition published_keys : list string :=
  ["KICKSTART_MON"; "KICKSTART_MON_INTERVAL"; "KICKSTART_MON_PID";
   "KICKSTART_MON_HOST"; "KICKSTART_MON_PORT"].

(** The names [initialize_monitoring_context] looks up. *)
Definition identity_keys : list string :=
  required_keys ++ ["PEGASUS_XFORMATION"; "PEGASUS_TASK_ID"].

(** ** What an iteration does with its answers *)

(** The iteration gets past [poll], finds no shutdown signal, accepts a
    connection and reads from it. *)
Definition receives (w : iteration) : bool :=
  (0 <? poll_ret w) && (Z.land (pipe_revents w) POLLIN =? 0)
  && (0 <=? accept_ret w) && (0 <=? recv_ret w).

(** The calls of such an iteration up to and including [recv]. *)
Definition received (ctx : MonitoringThreadContext) (w : iteration) : list action :=
  [SysPoll (poll_ret w); SysAccept (socket ctx) (accept_ret w);
   SysRecv (accept_ret w) (recv_ret w)].

(** The enriched record the iteration makes of the line it read. *)
Definition record_of (BUFSIZ : nat) (ctx : MonitoringThreadContext) (w : iteration)
  : string :=
  enrich BUFSIZ ctx (cut_at_newline (recv_line w)).

(** The iteration reads a line that begins with [ts=], and the record made
    of it is, with the delimiter, shorter than [BUFSIZ]. *)
Definition delivers (BUFSIZ : nat) (ctx : MonitoringThreadContext) (w : iteration)
  : bool :=
  receives w && String.prefix "ts=" (recv_line w)
  && (String.length (record_of BUFSIZ ctx w +:+ delimiter) <? BUFSIZ)%nat.

(** The iteration reads a line that does not begin with [ts=]. *)
Definition malformed (w : iteration) : bool :=
  receives w && negb (String.prefix "ts=" (recv_line w)).

(** The locals hold the records [pending]: as many are counted, and the
    buffer holds their text up to the offset. *)
Definition filled (st : loop_state) (pending : list string) : Prop :=
  msg_counter st = Z.of_nat (List.length pending)
  /\ aggr_msg_buffer_offset st = Z.of_nat (String.length (batch_text pending))
  /\ take (String.length (batch_text pending)) (aggr_msg_buffer st)
     = batch_text pending.

(** ** Lifecycle: stop *)

(** The calls [stop_monitoring_thread] makes. *)
Inductive stop_call :=
| SignalWrite (fd ret : Z)
| SignalComplaint (errno : Z)
| JoinThread
| ClosePipe (fd : Z).

(** What the world answers to [stop_monitoring_thread]: the value of
    [write], and [errno] after it failed. *)
Record stop_answers := {
  write_ret : Z;
  stop_errno : Z
}.

(** [stop_monitoring_thread]; [signal_pipe] is the pair of descriptors the
    static array of that name holds. *)
Definition stop_monitoring_thread (signal_pipe : Z * Z) (w : stop_answers)
  : Z * list stop_call :=
  let rc := write_ret w in
  if rc <=? 0 then
    (rc, [SignalWrite (snd signal_pipe) rc; SignalComplaint (stop_errno w)])
  else
    (0, [SignalWrite (snd signal_pipe) rc; JoinThread;
         ClosePipe (fst signal_pipe); ClosePipe (snd signal_pipe)]).

Definition is_join (c : stop_call) : bool :=
  match c with JoinThread => true | _ => false end.

Definition is_close_pipe (c : stop_call) : bool :=
  match c with ClosePipe _ => true | _ => false end.

(** ** Further readings of a trace *)

(** The values [accept] returned, in order. *)
Fixpoint accepted_fds (t : list action) : list Z :=
  match t with
  | [] => []
  | SysAccept _ ret :: t' => ret :: accepted_fds t'
  | _ :: t' => accepted_fds t'
  end.

(** The descriptors handed to [close], in order. *)
Fixpoint closed_fds (t : list action) : list Z :=
  match t with
  | [] => []
  | SysClose fd :: t' => fd :: closed_fds t'
  | _ :: t' => closed_fds t'
  end.

(** The requests performed, in order. *)
Fixpoint requests (t : list action) : list curl_request :=
  match t with
  | [] => []
  | CurlEasyPerform req _ :: t' => req :: requests t'
  | _ :: t' => requests t'
  end.

Definition is_handle (a : action) : bool :=
  match a with CurlEasyInit true => true | _ => false end.

Definition is_cleanup (a : action) : bool :=
  match a with CurlEasyCleanup => true | _ => false end.

Definition is_perform (a : action) : bool :=
  match a with CurlEasyPerform _ _ => true | _ => false end.

(** The descriptors that are open descriptors: not negative. *)
Definition descriptors (fds : list Z) : list Z :=
  List.filter (fun fd => 0 <=? fd) fds.



(** ** Iterations, compared and classified *)

(** The two iterations get the same answers from the operating system;
    libcurl may answer differently. *)
Definition same_but_curl (w w' : iteration) : Prop :=
  poll_ret w = poll_ret w' /\ pipe_revents w = pipe_revents w'
  /\ socket_revents w = socket_revents w' /\ accept_ret w = accept_ret w'
  /\ recv_ret w = recv_ret w' /\ recv_line w = recv_line w'
  /\ errno w = errno w'.



(** The batch text an iteration that [receives] hands to the forwarder, if
    it hands one. *)
Definition batch_of (BUFSIZ : nat) (ctx : MonitoringThreadContext) (w : iteration)
  : option string :=
  let text := record_of BUFSIZ ctx w +:+ delimiter in
  if String.prefix "ts=" (recv_line w)
     && (String.length text <=? BUFSIZ)%nat
  then Some (take (BUFSIZ - 1) text)
  else None.

(** The bodies an iteration that [receives] posts. *)
Definition bodies_of
  (BUFSIZ : nat) (ctx : MonitoringThreadContext) (uuid : string) (w : iteration)
  : list string :=
  match batch_of BUFSIZ ctx w with
  | Some batch => if curl_handle (curl w) then [envelope uuid batch] else []
  | None => []
  end.

(** What ends the loop: [poll] fails, or the signal pipe is readable, or
    [accept] fails for another reason than an interruption. *)
Definition ends_loop (w : iteration) : bool :=
  (poll_ret w <=? 0)
  || negb (Z.land (pipe_revents w) POLLIN =? 0)
  || ((accept_ret w <? 0) && negb (errno w =? EINTR)).

(** Every call of the endpoint allocator succeeds. *)
Definition endpoint_succeeds (w : endpoint_answers) : bool :=
  (0 <=? socket_ret w) && (0 <=? bind_ret w) && (0 <=? listen_ret w)
  && negb (getsockname_ret w =? -1) && (gethostname_ret w =? 0).

(** A port number fits 16 bits. *)
Definition is_port (port : Z) : bool := (0 <=? port) && (port <? 65536).

(** The number a decimal text stands for. *)
Definition read_decimal (text : string) : option Z :=
  option_map Z.of_int (NilZero.int_of_string text).

(** A line that begins with [ts=] and is 8100 characters long: too long
    for its record to fit [enriched_line] of [glibc_BUFSIZ] bytes. *)
Definition overlong_line : string := "ts=" +:+ filler (Z.to_nat 8097) "x".

(** A client sends a heartbeat, libcurl answers [c]. *)
Definition heartbeat_with (c : curl_answers) : iteration :=
  {| poll_ret := 1; pipe_revents := 0; socket_revents := 1;
     accept_ret := 5; recv_ret := 24; recv_line := heartbeat +:+ LF;
     curl := c; errno := 0 |}.

(** A trace whose calls to libcurl all come from calls of [send_msg_to_mq]
    with the context [ctx]. *)
Inductive made_of_sends (ctx : MonitoringThreadContext) : list action -> Prop :=
| made_of_nothing : made_of_sends ctx []
| made_of_other (a : action) (t : list action) :
    is_curl a = false -> made_of_sends ctx t -> made_of_sends ctx (a :: t)
| made_of_send (c : curl_answers) (msg_buff : string) (t : list action) :
    made_of_sends ctx t -> made_of_sends ctx (send_msg_to_mq c msg_buff ctx ++ t).

(** The request goes where the context says, as the source sets it up. *)
Definition as_configured (ctx : MonitoringThreadContext) (req : curl_request) : Prop :=
  CURLOPT_URL req = url ctx
  /\ CURLOPT_USERPWD req = credentials ctx
  /\ CURLOPT_POST req = 1
  /\ CURLOPT_SSL_VERIFYPEER req = 0
  /\ CURLOPT_SSL_VERIFYHOST req = 0
  /\ CURLOPT_HTTPHEADER req = ["Content-Type: application/json"].

(** [pthread_create] was called and returned 0: the thread runs. *)
Definition is_thread_running (a : action) : bool :=
  match a with PthreadCreate _ ret => ret =? 0 | _ => false end.

(** The [n] integers from [z] on. *)
Fixpoint upto (n : nat) (z : Z) : list Z :=
  match n with
  | O => []
  | S n' => z :: upto n' (z + 1)
  end.

(** The iteration goes to [next:] before it has read a line: [accept] was
    interrupted, or [recv] failed. *)
Definition skipped (w : iteration) : bool :=
  (0 <? poll_ret w) && (Z.land (pipe_revents w) POLLIN =? 0)
  && (((accept_ret w <? 0) && (errno w =? EINTR))
      || ((0 <=? accept_ret w) && (recv_ret w <? 0))).

(** A client connects on descriptor 5 and [recv] fails (ECONNRESET). *)
Definition recv_fails : iteration :=
  {| poll_ret := 1; pipe_revents := 0; socket_revents := 1;
     accept_ret := 5; recv_ret := -1; recv_line := EmptyString;
     curl := curl_fine; errno := 104 |}.

(** ** The bytes of [line]

    [char line[BUFSIZ]] is not initialised, and [recv] terminates nothing:
    what [strchr] and [strstr] read in [line] is decided by the bytes [recv]
    stored there and, behind them, by the bytes the array held before. The
    array is given here as the string of its [BUFSIZ] bytes, terminators
    included. It has one place in the frame of [monitoring_thread_func]:
    an iteration finds in it the bytes the iteration before left. *)

(** The terminator of a C string. *)
Definition NUL : ascii := ascii_of_nat 0.

(** [s] without its first [n] characters. *)
Fixpoint drop (n : nat) (s : string) : string :=
  match n, s with
  | S n', String _ rest => drop n' rest
  | _, _ => s
  end.

(** [recv(incoming_socket, line, BUFSIZ, 0)] that receives [data]: at most
    [BUFSIZ] bytes are stored, over the first bytes of the array; the bytes
    behind them stay. *)
Definition stored (BUFSIZ : nat) (raw data : string) : string :=
  take BUFSIZ data +:+ drop (String.length (take BUFSIZ data)) raw.

(** What [strstr(line, "ts=")] and the [%s] of [snprintf] read in [line]
    once [strchr(line, '\n')] has put a terminator on the first line feed:
    the bytes before the first line feed or terminator of the array.
    [None]: the array holds neither, and [strchr] reads past its end. *)
Fixpoint first_line (raw : string) : option string :=
  match raw with
  | EmptyString => None
  | String c rest =>
      if Ascii.eqb c (ascii_of_nat 10) || Ascii.eqb c NUL then Some EmptyString
      else option_map (String c) (first_line rest)
  end.

(** [if ((pos = strchr(line, '\n')) != NULL) *pos = '\0';] on the bytes of
    the array: the first line feed of the C string, when it has one,
    becomes a terminator. *)
Fixpoint terminated (raw : string) : string :=
  match raw with
  | EmptyString => EmptyString
  | String c rest =>
      if Ascii.eqb c NUL then raw
      else if Ascii.eqb c (ascii_of_nat 10) then String NUL rest
      else String c (terminated rest)
  end.

(** What the world answers during one iteration, with the bytes [recv]
    receives in place of the C string found in [line]: [arr_recv] is [None]
    when [recv] fails, and the bytes received when it succeeds, [recv] then
    returning their number. *)
Record arrival := {
  arr_poll_ret : Z;
  arr_pipe_revents : Z;
  arr_socket_revents : Z;
  arr_accept_ret : Z;
  arr_recv : option string;
  arr_curl : curl_answers;
  arr_errno : Z
}.

(** The answers of [a] as an [iteration], [recv] returning [num_bytes] and
    [line] holding the C string [line]. *)
Definition iteration_of (a : arrival) (num_bytes : Z) (line : string) : iteration :=
  {| poll_ret := arr_poll_ret a;
     pipe_revents := arr_pipe_revents a;
     socket_revents := arr_socket_revents a;
     accept_ret := arr_accept_ret a;
     recv_ret := num_bytes;
     recv_line := line;
     curl := arr_curl a;
     errno := arr_errno a |}.

(** Whether the iteration gets as far as [recv]: [poll] returned more
    than 0, the signal pipe is not readable and [accept] gave a descriptor. *)
Definition reaches_recv (a : arrival) : bool :=
  (0 <? arr_poll_ret a)
  && (Z.land (arr_pipe_revents a) POLLIN =? 0)
  && (0 <=? arr_accept_ret a).

(** Lines 279-291 on the bytes of [line]: the iteration the loop body goes
    through, and the bytes of the array after it. An iteration that does not
    get to [recv], or whose [recv] fails, leaves the array as it was.
    [None]: [strchr] reads past the array. *)
Definition line_step (BUFSIZ : nat) (raw : string) (a : arrival)
  : option (iteration * string) :=
  if reaches_recv a then
    match arr_recv a with
    | None => Some (iteration_of a (-1) EmptyString, raw)
    | Some data =>
        let raw' := stored BUFSIZ raw data in
        match first_line raw' with
        | Some line =>
            Some (iteration_of a (Z.of_nat (String.length (take BUFSIZ data))) line,
                  terminated raw')
        | None => None
        end
    end
  else Some (iteration_of a 0 EmptyString, raw).

(** The loop on the bytes the connections deliver, [raw] being the bytes of
    [line] when the loop is entered. *)
Fixpoint relay_loop
  (BUFSIZ : nat) (ctx : MonitoringThreadContext) (st : loop_state) (raw : string)
  (arrivals : list arrival) : option (flow * loop_state * string * list action) :=
  match arrivals with
  | [] => Some (Next, st, raw, [])
  | a :: rest =>
      match line_step BUFSIZ raw a with
      | None => None
      | Some (w, raw') =>
          match loop_body BUFSIZ ctx st w with
          | (Break, st', t) => Some (Break, st', raw', t)
          | (Next, st', t) =>
              match relay_loop BUFSIZ ctx st' raw' rest with
              | Some (f, st'', raw'', t') => Some (f, st'', raw'', t ++ t')
              | None => None
              end
          end
      end
  end.

(** The traffic with the broker of a run of [relay_loop]. *)
Definition relayed (run : option (flow * loop_state * string * list action))
  : option (list string) :=
  option_map (fun r => posted (snd r)) run.

(** The line a connection delivers by itself, whatever [line] held: the
    bytes [recv] stored hold a line feed or a terminator. *)
Definition own_line (BUFSIZ : nat) (a : arrival) : option string :=
  if reaches_recv a then
    match arr_recv a with
    | Some data => first_line (take BUFSIZ data)
    | None => None
    end
  else None.

(** The bodies a connection with a line of its own gives rise to. *)
Definition bodies_of_arrival
  (BUFSIZ : nat) (ctx : MonitoringThreadContext) (uuid : string) (a : arrival)
  : list string :=
  match own_line BUFSIZ a with
  | Some line => bodies_of BUFSIZ ctx uuid (iteration_of a 0 line)
  | None => []
  end.

(** A client that connects on descriptor 5 and whose connection delivers
    the bytes [data]. *)
Definition connection (data : string) : arrival :=
  {| arr_poll_ret := 1; arr_pipe_revents := 0; arr_socket_revents := 1;
     arr_accept_ret := 5; arr_recv := Some data;
     arr_curl := curl_fine; arr_errno := 0 |}.

(** ** The envelope read as JSON

    The claim's JSON object, read back: its four members in the order and
    the layout of the claim, the two texts as JSON string literals. *)

Definition quote : ascii := ascii_of_nat 34.
Definition backslash : ascii := ascii_of_nat 92.

(** The character a two-character escape of a JSON string stands for. *)
Definition unescape (c : ascii) : option ascii :=
  if Ascii.eqb c quote then Some quote
  else if Ascii.eqb c backslash then Some backslash
  else if Ascii.eqb c "/" then Some "/"%char
  else if Ascii.eqb c "b" then Some (ascii_of_nat 8)
  else if Ascii.eqb c "f" then Some (ascii_of_nat 12)
  else if Ascii.eqb c "n" then Some (ascii_of_nat 10)
  else if Ascii.eqb c "r" then Some (ascii_of_nat 13)
  else if Ascii.eqb c "t" then Some (ascii_of_nat 9)
  else None.

(** A JSON string literal read from behind its opening quote: the text it
    stands for and what follows its closing quote. A control character is
    not allowed in a literal; bytes from 128 up are kept as they are; a
    [\u] escape is not read. *)
Fixpoint read_json_string (s : string) : option (string * string) :=
  match s with
  | EmptyString => None
  | String c rest =>
      if Ascii.eqb c quote then Some (EmptyString, rest)
      else if Ascii.eqb c backslash then
        match rest with
        | String e rest' =>
            match unescape e, read_json_string rest' with
            | Some ch, Some (text, after) => Some (String ch text, after)
            | _, _ => None
            end
        | EmptyString => None
        end
      else if (nat_of_ascii c <? 32)%nat then None
      else
        match read_json_string rest with
        | Some (text, after) => Some (String c text, after)
        | None => None
        end
  end.

(** [s] behind the text [literal] it starts with. *)
Definition behind (literal s : string) : option string :=
  if String.prefix literal s then Some (drop (String.length literal) s) else None.

Definition json_quote : string := String quote EmptyString.

(** The envelope up to the text of the routing key, between the two texts,
    and from the end of the payload on. *)
Definition json_open : string :=
  "{" +:+ json_quote +:+ "properties" +:+ json_quote +:+ ":{},"
  +:+ json_quote +:+ "routing_key" +:+ json_quote +:+ ":" +:+ json_quote.

Definition json_middle : string :=
  "," +:+ json_quote +:+ "payload" +:+ json_quote +:+ ":" +:+ json_quote.

Definition json_close : string :=
  "," +:+ json_quote +:+ "payload_encoding" +:+ json_quote +:+ ":"
  +:+ json_quote +:+ "string" +:+ json_quote +:+ "}".

(** The routing key and the payload of a body that is the claim's JSON
    object; [None] for a body that is not. *)
Definition read_envelope (body : string) : option (string * string) :=
  match behind json_open body with
  | None => None
  | Some s1 =>
      match read_json_string s1 with
      | None => None
      | Some (routing_key, s2) =>
          match behind json_middle s2 with
          | None => None
          | Some s3 =>
              match read_json_string s3 with
              | None => None
              | Some (payload, s4) =>
                  match behind json_close s4 with
                  | Some EmptyString => Some (routing_key, payload)
                  | _ => None
                  end
              end
          end
      end
  end.

(** A text that stands for itself in a JSON string literal: no double
    quote, no backslash, no control character. *)
Fixpoint plain (s : string) : bool :=
  match s with
  | EmptyString => true
  | String c rest =>
      negb (Ascii.eqb c quote) && negb (Ascii.eqb c backslash)
      && negb (nat_of_ascii c <? 32)%nat && plain rest
  end.

(** A line with a quoted word, and one with a Windows path. *)
Definition quoted_line : string :=
  "ts=1476 event=start app=" +:+ json_quote +:+ "mProject" +:+ json_quote.

Definition path_line : string :=
  "ts=1476 event=start cwd=C:" +:+ String backslash EmptyString +:+ "tmp".

(** Boolean tests in the hypotheses, as propositions. *)
Ltac zbool :=
  repeat match goal with
  | H : (_ && _)%bool = true |- _ => apply andb_true_iff in H; destruct H
  | H : negb _ = true |- _ => apply negb_true_iff in H
  | H : (_ <? _) = true |- _ => apply Z.ltb_lt in H
  | H : (_ <=? _) = true |- _ => apply Z.leb_le in H
  | H : (_ =? _) = true |- _ => apply Z.eqb_eq in H
  | H : (_ <? _)%nat = true |- _ => apply Nat.ltb_lt in H
  end.

(** * Properties *)

(** ** Facts about text *)

Lemma append_nil_l (s : string) : EmptyString +:+ s = s.
Proof. reflexivity. Qed.

Lemma append_cons (c : ascii) (a b : string) :
  String c a +:+ b = String c (a +:+ b).
Proof. reflexivity. Qed.

Lemma append_nil_r (s : string) : s +:+ EmptyString = s.
Proof.
  induction s as [|c s IH]; [reflexivity |].
  now rewrite append_cons, IH.
Qed.

Lemma append_assoc (a b c : string) : (a +:+ b) +:+ c = a +:+ (b +:+ c).
Proof.
  induction a as [|x a IH]; [reflexivity |].
  now rewrite !append_cons, IH.
Qed.

Lemma length_append (a b : string) :
  String.length (a +:+ b) = (String.length a + String.length b)%nat.
Proof.
  induction a as [|x a IH]; [reflexivity |].
  rewrite append_cons; simpl; now rewrite IH.
Qed.

Lemma take_all (n : nat) (s : string) :
  (String.length s <= n)%nat -> take n s = s.
Proof.
  revert n; induction s as [|c s IH]; intros [|n] H; simpl in *;
    try reflexivity; try lia.
  f_equal; apply IH; lia.
Qed.

Lemma length_take (n : nat) (s : string) :
  String.length (take n s) = Nat.min n (String.length s).
Proof.
  revert n; induction s as [|c s IH]; intros [|n]; simpl; try reflexivity.
  now rewrite IH.
Qed.

Lemma take_length_append (a b : string) : take (String.length a) (a +:+ b) = a.
Proof.
  induction a as [|x a IH]; [now destruct b |].
  rewrite append_cons; simpl; now rewrite IH.
Qed.

Lemma prefix_append (a b : string) : String.prefix a (a +:+ b) = true.
Proof.
  induction a as [|x a IH]; [now destruct b |].
  rewrite append_cons; simpl.
  destruct (ascii_dec x x); [assumption | congruence].
Qed.

Lemma prefix_cons (a b : ascii) (s1 s2 : string) :
  String.prefix (String a s1) (String b s2)
  = if ascii_dec a b then String.prefix s1 s2 else false.
Proof. reflexivity. Qed.

(** Cutting a string at its first line feed does not change whether it
    begins with a text that has no line feed. *)
Lemma prefix_cut_general (p : string) :
  cut_at_newline p = p ->
  forall s, String.prefix p (cut_at_newline s) = String.prefix p s.
Proof.
  induction p as [|a p IH]; intros Hp s;
    [now destruct (cut_at_newline s), s |].
  simpl in Hp. destruct (Ascii.eqb_spec a (ascii_of_nat 10)) as [Ha|Ha];
    [discriminate |].
  injection Hp as Hp.
  destruct s as [|b s]; [reflexivity |].
  simpl cut_at_newline.
  destruct (Ascii.eqb_spec b (ascii_of_nat 10)) as [Hb|Hb].
  - subst b. rewrite prefix_cons.
    destruct (ascii_dec a (ascii_of_nat 10)); [contradiction | reflexivity].
  - rewrite !prefix_cons. destruct (ascii_dec a b); [now apply IH | reflexivity].
Qed.

Lemma prefix_cut_at_newline (s : string) :
  String.prefix "ts=" (cut_at_newline s) = String.prefix "ts=" s.
Proof. now apply prefix_cut_general. Qed.

(** [strstr(line, "ts=") == line] exactly when [line] begins with [ts=]. *)
Lemma strstr_at_start (line : string) :
  strstr line "ts=" = Some O <-> String.prefix "ts=" line = true.
Proof.
  unfold strstr. destruct line as [|c line].
  - simpl. split; discriminate.
  - cbn [index]. destruct (String.prefix "ts=" (String c line)).
    + split; reflexivity.
    + split; [| discriminate].
      destruct (index 0 "ts=" line); discriminate.
Qed.

(** ** Enrichment (C1) *)

Lemma enriched_text (ctx : MonitoringThreadContext) (line : string) :
  format enriched_format
    [ArgS (Some line); ArgS (wf_uuid ctx); ArgS (wf_label ctx);
     ArgS (dag_job_id ctx); ArgS (condor_job_id ctx);
     ArgS (xformation ctx); ArgS (task_id ctx)]
  = line +:+ identity_tokens ctx.
Proof.
  unfold identity_tokens, shown.
  rewrite <- (append_nil_r (render (ArgS (task_id ctx)))) at 1.
  reflexivity.
Qed.

(** The enriched line is the received line followed by the six tokens, cut
    to the [BUFSIZ - 1] characters [enriched_line] can hold. *)
Lemma enrich_text (BUFSIZ : nat) (ctx : MonitoringThreadContext) (line : string) :
  enrich BUFSIZ ctx line = take (BUFSIZ - 1) (line +:+ identity_tokens ctx).
Proof. unfold enrich, snprintf; cbn [fst]. now rewrite enriched_text. Qed.

Lemma enrich_length (BUFSIZ : nat) (ctx : MonitoringThreadContext) (line : string) :
  (String.length (enrich BUFSIZ ctx line) <= BUFSIZ - 1)%nat.
Proof. rewrite enrich_text, length_take. lia. Qed.

(** A line that leaves room for the tokens keeps all of them; with both
    optional values defined, the tokens carry the values as they are. *)
Lemma enrich_complete (BUFSIZ : nat) (ctx : MonitoringThreadContext) (line : string) :
  (String.length (line +:+ identity_tokens ctx) < BUFSIZ)%nat ->
  enrich BUFSIZ ctx line = line +:+ identity_tokens ctx
  /\ String.prefix line (enrich BUFSIZ ctx line) = true.
Proof.
  intros Hfit. rewrite enrich_text, take_all by lia.
  split; [reflexivity | apply prefix_append].
Qed.

Lemma enrich_fully_specified :
  enrich glibc_BUFSIZ (context_of fully_specified 3) "ts=1476 event=heartbeat"
  = "ts=1476 event=heartbeat wf_uuid=7a3c wf_label=montage dag_job_id=mProject_ID01 condor_job_id=42.0 xformation=mProject task_id=ID01".
Proof. vm_compute. reflexivity. Qed.

(** C1 — the enriched record is the line followed by the six tokens, with
    an empty value for an optional field that is absent. Evaluated on an
    environment that defines neither PEGASUS_XFORMATION nor PEGASUS_TASK_ID:
    the context holds NULL for both, and [snprintf] prints each of them as
    the text (null). *)
Theorem enrich_absent_optional_fields :
  initialize_monitoring_context required_only calloc_context
  = (0, context_of required_only 0, [])
  /\ xformation (context_of required_only 0) = None
  /\ task_id (context_of required_only 0) = None
  /\ enrich glibc_BUFSIZ (context_of required_only 0) "ts=1476 event=heartbeat"
     = "ts=1476 event=heartbeat wf_uuid=7a3c wf_label=montage dag_job_id=mProject_ID01 condor_job_id=42.0 xformation=(null) task_id=(null)"
  /\ enrich glibc_BUFSIZ (context_of required_only 0) "ts=1476 event=heartbeat"
     <> "ts=1476 event=heartbeat wf_uuid=7a3c wf_label=montage dag_job_id=mProject_ID01 condor_job_id=42.0 xformation= task_id=".
Proof.
  repeat split; try (vm_compute; reflexivity).
  vm_compute. discriminate.
Qed.

(** ** Traces *)

Lemma forward_calls_app (t1 t2 : list action) :
  forward_calls (t1 ++ t2) = (forward_calls t1 + forward_calls t2)%nat.
Proof. unfold forward_calls. now rewrite List.filter_app, List.length_app. Qed.

Lemma curl_calls_app (t1 t2 : list action) :
  curl_calls (t1 ++ t2) = curl_calls t1 ++ curl_calls t2.
Proof. apply List.filter_app. Qed.

Lemma posted_app (t1 t2 : list action) :
  posted (t1 ++ t2) = posted t1 ++ posted t2.
Proof.
  induction t1 as [|a t1 IH]; [reflexivity |].
  destruct a; simpl; rewrite ?IH; reflexivity.
Qed.

(** A call of [send_msg_to_mq] is one forward call, whatever libcurl
    answers. *)
Lemma send_msg_to_mq_one_call
  (c : curl_answers) (msg_buff : string) (ctx : MonitoringThreadContext) :
  forward_calls (send_msg_to_mq c msg_buff ctx) = 1%nat.
Proof.
  unfold send_msg_to_mq.
  destruct (curl_handle c); [| reflexivity].
  destruct (curl_result c =? CURLE_OK); reflexivity.
Qed.

Lemma received_no_forward (ctx : MonitoringThreadContext) (w : iteration) :
  forward_calls (received ctx w) = 0%nat.
Proof. reflexivity. Qed.

(** ** The loop, iteration by iteration *)

Lemma monitoring_loop_app
  (BUFSIZ : nat) (ctx : MonitoringThreadContext) (ws1 ws2 : list iteration) :
  forall st,
  monitoring_loop BUFSIZ ctx st (ws1 ++ ws2)
  = match monitoring_loop BUFSIZ ctx st ws1 with
    | (Break, st', t) => (Break, st', t)
    | (Next, st', t) =>
        let '(f, st'', t') := monitoring_loop BUFSIZ ctx st' ws2 in
        (f, st'', t ++ t')
    end.
Proof.
  induction ws1 as [|w ws1 IH]; intros st.
  - simpl. destruct (monitoring_loop BUFSIZ ctx st ws2) as [[f st'] t]. reflexivity.
  - simpl. destruct (loop_body BUFSIZ ctx st w) as [[[|] st1] t1]; [| reflexivity].
    rewrite IH.
    destruct (monitoring_loop BUFSIZ ctx st1 ws1) as [[[|] st2] t2]; [| reflexivity].
    destruct (monitoring_loop BUFSIZ ctx st2 ws2) as [[f st3] t3].
    now rewrite List.app_assoc.
Qed.

Lemma aggregated_text (record : string) :
  format aggregate_format [ArgS (Some record)] = record +:+ delimiter.
Proof. reflexivity. Qed.

(** What an iteration does with a line that begins with [ts=]. *)
Lemma loop_body_valid_line
  (BUFSIZ : nat) (ctx : MonitoringThreadContext) (st : loop_state) (w : iteration) :
  receives w = true ->
  String.prefix "ts=" (recv_line w) = true ->
  let text := record_of BUFSIZ ctx w +:+ delimiter in
  let n := Z.of_nat (String.length text) in
  let buffer :=
    write_at (aggr_msg_buffer st) (aggr_msg_buffer_offset st)
      (take (BUFSIZ - 1) text) in
  loop_body BUFSIZ ctx st w
  = if n >? Z.of_nat BUFSIZ then
      (Next,
       {| msg_counter := msg_counter st;
          aggr_msg_buffer_offset := aggr_msg_buffer_offset st;
          aggr_msg_buffer := buffer |},
       received ctx w ++
       [Printerr ("[mon-thread] Error aggregating messages: snprintf: %s" +:+ LF)
          [Strerror (errno w)];
        SysClose (accept_ret w)])
    else if msg_counter st + 1 =? MSG_AGGR_FACTOR then
      (Next, emptied,
       received ctx w ++ send_msg_to_mq (curl w) buffer ctx
       ++ [SysClose (accept_ret w)])
    else
      (Next,
       {| msg_counter := msg_counter st + 1;
          aggr_msg_buffer_offset := aggr_msg_buffer_offset st + n;
          aggr_msg_buffer := buffer |},
       received ctx w ++ [SysClose (accept_ret w)]).
Proof.
  intros Hrecv Hts text n buffer. unfold receives in Hrecv. zbool.
  unfold loop_body.
  replace (poll_ret w <=? 0) with false by (symmetry; apply Z.leb_gt; lia).
  replace (Z.land (pipe_revents w) POLLIN =? 0) with true
    by (symmetry; now apply Z.eqb_eq).
  replace (accept_ret w <? 0) with false by (symmetry; apply Z.ltb_ge; lia).
  replace (recv_ret w <? 0) with false by (symmetry; apply Z.ltb_ge; lia).
  cbn [negb].
  rewrite (proj2 (strstr_at_start _))
    by (now rewrite prefix_cut_at_newline).
  unfold snprintf. rewrite aggregated_text.
  fold (record_of BUFSIZ ctx w). fold text. fold n. fold buffer.
  replace (n <? 0) with false by (symmetry; apply Z.ltb_ge; lia).
  cbn [orb]. reflexivity.
Qed.

(** ** Aggregation (C2, C10) *)

Lemma MSG_AGGR_FACTOR_positive : 0 < MSG_AGGR_FACTOR.
Proof. reflexivity. Qed.

#[local] Opaque MSG_AGGR_FACTOR.

Lemma batch_text_snoc (records : list string) (r : string) :
  batch_text (records ++ [r]) = batch_text records +:+ r +:+ delimiter.
Proof.
  induction records as [|x records IH]; simpl.
  - now rewrite append_nil_r.
  - now rewrite IH, !append_assoc.
Qed.

Lemma filled_entry (st : loop_state) :
  msg_counter st = 0 -> aggr_msg_buffer_offset st = 0 -> filled st [].
Proof. intros Hc Ho. unfold filled. simpl. auto. Qed.

(** With the records [pending] in the buffer, a record that fits is written
    right behind them. *)
Lemma write_behind_pending
  (BUFSIZ : nat) (st : loop_state) (pending : list string) (r : string) :
  filled st pending ->
  (String.length (r +:+ delimiter) < BUFSIZ)%nat ->
  write_at (aggr_msg_buffer st) (aggr_msg_buffer_offset st)
    (take (BUFSIZ - 1) (r +:+ delimiter))
  = batch_text (pending ++ [r]).
Proof.
  intros (Hc & Ho & Hb) Hfit. unfold write_at.
  assert (String.length (batch_text pending)
          <= String.length (aggr_msg_buffer st))%nat as Hle.
  { pose proof (length_take (String.length (batch_text pending))
                  (aggr_msg_buffer st)) as Hlen.
    rewrite Hb in Hlen. lia. }
  rewrite Ho.
  replace (0 <=? Z.of_nat (String.length (batch_text pending))) with true
    by (symmetry; apply Z.leb_le; lia).
  replace (Z.of_nat (String.length (batch_text pending))
           <=? Z.of_nat (String.length (aggr_msg_buffer st))) with true
    by (symmetry; apply Z.leb_le; lia).
  cbn [andb]. rewrite Nat2Z.id, Hb, take_all by lia.
  now rewrite batch_text_snoc.
Qed.

(** An iteration that delivers a record short of a full batch buffers it. *)
Lemma loop_body_buffers
  (BUFSIZ : nat) (ctx : MonitoringThreadContext)
  (st : loop_state) (pending : list string) (w : iteration) :
  filled st pending ->
  delivers BUFSIZ ctx w = true ->
  msg_counter st + 1 <> MSG_AGGR_FACTOR ->
  exists st',
    loop_body BUFSIZ ctx st w
    = (Next, st', received ctx w ++ [SysClose (accept_ret w)])
    /\ filled st' (pending ++ [record_of BUFSIZ ctx w]).
Proof.
  intros Hfilled Hw Hroom. unfold delivers in Hw. zbool.
  rewrite loop_body_valid_line by assumption.
  replace (_ >? Z.of_nat BUFSIZ) with false
    by (symmetry; rewrite Z.gtb_ltb; apply Z.ltb_ge; lia).
  replace (msg_counter st + 1 =? MSG_AGGR_FACTOR) with false
    by (symmetry; now apply Z.eqb_neq).
  eexists; split; [reflexivity |].
  rewrite (write_behind_pending BUFSIZ st pending) by assumption.
  destruct Hfilled as (Hc & Ho & Hb).
  unfold filled; cbn [msg_counter aggr_msg_buffer_offset aggr_msg_buffer].
  repeat split.
  - rewrite List.length_app. cbn [List.length]. lia.
  - rewrite batch_text_snoc, !length_append. lia.
  - apply take_all. lia.
Qed.

(** An iteration that delivers the record that completes the batch sends
    the batch and empties the buffer. *)
Lemma loop_body_flushes
  (BUFSIZ : nat) (ctx : MonitoringThreadContext)
  (st : loop_state) (pending : list string) (w : iteration) :
  filled st pending ->
  delivers BUFSIZ ctx w = true ->
  msg_counter st + 1 = MSG_AGGR_FACTOR ->
  loop_body BUFSIZ ctx st w
  = (Next, emptied,
     received ctx w
     ++ send_msg_to_mq (curl w)
          (batch_text (pending ++ [record_of BUFSIZ ctx w])) ctx
     ++ [SysClose (accept_ret w)]).
Proof.
  intros Hfilled Hw Hfull. unfold delivers in Hw. zbool.
  rewrite loop_body_valid_line by assumption.
  replace (_ >? Z.of_nat BUFSIZ) with false
    by (symmetry; rewrite Z.gtb_ltb; apply Z.ltb_ge; lia).
  replace (msg_counter st + 1 =? MSG_AGGR_FACTOR) with true
    by (symmetry; now apply Z.eqb_eq).
  now rewrite (write_behind_pending BUFSIZ st pending) by assumption.
Qed.

(** Fewer deliveries than a batch needs are all buffered, in order, and
    nothing is forwarded. *)
Lemma monitoring_loop_buffers
  (BUFSIZ : nat) (ctx : MonitoringThreadContext) (ws : list iteration) :
  forall (st : loop_state) (pending : list string),
  filled st pending ->
  List.Forall (fun w => delivers BUFSIZ ctx w = true) ws ->
  Z.of_nat (List.length pending + List.length ws) < MSG_AGGR_FACTOR ->
  exists st' t,
    monitoring_loop BUFSIZ ctx st ws = (Next, st', t)
    /\ filled st' (pending ++ List.map (record_of BUFSIZ ctx) ws)
    /\ forward_calls t = 0%nat.
Proof.
  induction ws as [|w ws IH]; intros st pending Hfilled Hall Hroom.
  - exists st, []. simpl. rewrite List.app_nil_r. auto.
  - inversion Hall as [|w' ws' Hw Hws]; subst.
    destruct (loop_body_buffers BUFSIZ ctx st pending w Hfilled Hw)
      as (st1 & Hstep & Hfilled1).
    { destruct Hfilled as (Hc & _). rewrite Hc. simpl in Hroom. lia. }
    destruct (IH st1 (pending ++ [record_of BUFSIZ ctx w]) Hfilled1 Hws)
      as (st2 & t2 & Hloop & Hfilled2 & Hnone).
    { rewrite List.length_app. simpl in *. lia. }
    exists st2, ((received ctx w ++ [SysClose (accept_ret w)]) ++ t2).
    cbn [monitoring_loop]. rewrite Hstep, Hloop. split; [reflexivity |].
    split.
    + now rewrite <- List.app_assoc in Hfilled2.
    + rewrite !forward_calls_app, Hnone. reflexivity.
Qed.

(** In this code the factor is 1: with nothing counted, every record that
    is delivered is forwarded at once, on its own, with the delimiter
    behind it. *)
Lemma delivery_forwarded_at_once
  (BUFSIZ : nat) (ctx : MonitoringThreadContext) (st : loop_state) (w : iteration) :
  msg_counter st = 0 ->
  aggr_msg_buffer_offset st = 0 ->
  delivers BUFSIZ ctx w = true ->
  loop_body BUFSIZ ctx st w
  = (Next, emptied,
     received ctx w
     ++ send_msg_to_mq (curl w) (record_of BUFSIZ ctx w +:+ delimiter) ctx
     ++ [SysClose (accept_ret w)]).
Proof.
  intros Hc Ho Hw.
  rewrite (loop_body_flushes BUFSIZ ctx st [] w (filled_entry st Hc Ho) Hw)
    by (rewrite Hc; vm_compute; reflexivity).
  cbn [app batch_text]. now rewrite append_nil_r.
Qed.

(** The test [n > BUFSIZ] lets through the record whose text with the
    delimiter is exactly [BUFSIZ] characters long, of which [snprintf]
    stored [BUFSIZ - 1]: it is forwarded with the last character of the
    delimiter missing. *)
Lemma delimiter_clipped_at_BUFSIZ
  (BUFSIZ : nat) (ctx : MonitoringThreadContext) (st : loop_state) (w : iteration) :
  msg_counter st = 0 ->
  aggr_msg_buffer_offset st = 0 ->
  receives w = true ->
  String.prefix "ts=" (recv_line w) = true ->
  String.length (record_of BUFSIZ ctx w +:+ delimiter) = BUFSIZ ->
  loop_body BUFSIZ ctx st w
  = (Next, emptied,
     received ctx w
     ++ send_msg_to_mq (curl w) (record_of BUFSIZ ctx w +:+ ":delim1") ctx
     ++ [SysClose (accept_ret w)]).
Proof.
  intros Hc Ho Hrecv Hts Hlen.
  rewrite loop_body_valid_line by assumption.
  rewrite Hlen, Hc, Ho.
  replace (Z.of_nat BUFSIZ >? Z.of_nat BUFSIZ) with false
    by (symmetry; rewrite Z.gtb_ltb; apply Z.ltb_irrefl).
  replace (0 + 1 =? MSG_AGGR_FACTOR) with true by (vm_compute; reflexivity).
  assert (take (BUFSIZ - 1) (record_of BUFSIZ ctx w +:+ delimiter)
          = record_of BUFSIZ ctx w +:+ ":delim1") as ->.
  { change delimiter with (":delim1" +:+ ":") in *.
    rewrite <- append_assoc in *. rewrite length_append in Hlen.
    cbn [String.length] in Hlen.
    replace (BUFSIZ - 1)%nat
      with (String.length (record_of BUFSIZ ctx w +:+ ":delim1")) by lia.
    apply take_length_append. }
  unfold write_at. cbn [Z.leb Z.compare andb Z.to_nat take].
  replace (0 <=? Z.of_nat (String.length (aggr_msg_buffer st))) with true
    by (symmetry; apply Z.leb_le; lia).
  reflexivity.
Qed.

(** C2 (as amended) — starting with nothing counted, once as many records
    as the aggregation factor have been delivered, each short enough to be
    written whole with its delimiter, the loop has made exactly one forward
    call, on the text of those records in their order, each followed by the
    delimiter, and counter, offset and buffer are back to empty. *)
Theorem batch_forwarded_when_full
  (BUFSIZ : nat) (ctx : MonitoringThreadContext)
  (st : loop_state) (ws : list iteration) :
  msg_counter st = 0 ->
  aggr_msg_buffer_offset st = 0 ->
  Z.of_nat (List.length ws) = MSG_AGGR_FACTOR ->
  List.Forall (fun w => delivers BUFSIZ ctx w = true) ws ->
  exists before w,
    monitoring_loop BUFSIZ ctx st ws
    = (Next, emptied,
       before
       ++ send_msg_to_mq (curl w)
            (batch_text (List.map (record_of BUFSIZ ctx) ws)) ctx
       ++ [SysClose (accept_ret w)])
    /\ forward_calls before = 0%nat
    /\ forward_calls (snd (monitoring_loop BUFSIZ ctx st ws)) = 1%nat.
Proof.
  intros Hc Ho Hfull Hall.
  destruct (List.exists_last (l := ws)) as (ws0 & w & ->).
  { intros ->. pose proof MSG_AGGR_FACTOR_positive. simpl in Hfull. lia. }
  apply List.Forall_app in Hall as [Hall0 Hw].
  inversion Hw as [|w' ws' Hlast _]; subst.
  rewrite List.length_app in Hfull. cbn [List.length] in Hfull.
  destruct (monitoring_loop_buffers BUFSIZ ctx ws0 st [] (filled_entry st Hc Ho) Hall0)
    as (st1 & t1 & Hloop & Hfilled & Hnone).
  { cbn [List.length]. lia. }
  cbn [app] in Hfilled.
  assert (monitoring_loop BUFSIZ ctx st (ws0 ++ [w])
          = (Next, emptied,
             (t1 ++ received ctx w)
             ++ send_msg_to_mq (curl w)
                  (batch_text (List.map (record_of BUFSIZ ctx) (ws0 ++ [w]))) ctx
             ++ [SysClose (accept_ret w)])) as Hrun.
  { rewrite monitoring_loop_app, Hloop. cbn [monitoring_loop].
    rewrite (loop_body_flushes BUFSIZ ctx st1 _ w Hfilled Hlast).
    - rewrite List.map_app, List.app_nil_r, <- !List.app_assoc. reflexivity.
    - destruct Hfilled as (Hc1 & _). rewrite Hc1, List.length_map. lia. }
  exists (t1 ++ received ctx w), w. rewrite Hrun. cbn [snd].
  rewrite !forward_calls_app, send_msg_to_mq_one_call, Hnone.
  repeat split.
Qed.

Lemma batch_forwarded_when_full_witness :
  exists before w,
    monitoring_loop glibc_BUFSIZ (context_of fully_specified 3) (loop_entry "stale")
      [client_sends (heartbeat +:+ LF)]
    = (Next, emptied,
       before
       ++ send_msg_to_mq (curl w)
            (batch_text
               (List.map (record_of glibc_BUFSIZ (context_of fully_specified 3))
                  [client_sends (heartbeat +:+ LF)]))
            (context_of fully_specified 3)
       ++ [SysClose (accept_ret w)])
    /\ forward_calls before = 0%nat
    /\ forward_calls
         (snd (monitoring_loop glibc_BUFSIZ (context_of fully_specified 3)
                 (loop_entry "stale") [client_sends (heartbeat +:+ LF)]))
       = 1%nat.
Proof.
  apply (batch_forwarded_when_full glibc_BUFSIZ (context_of fully_specified 3)
           (loop_entry "stale") [client_sends (heartbeat +:+ LF)]).
  - reflexivity.
  - reflexivity.
  - vm_compute. reflexivity.
  - constructor; [vm_compute; reflexivity | constructor].
Defined.

(** C2 as stated fails: the one record of a batch is forwarded with the
    delimiter behind it, which is not the text of one record joined by the
    delimiter. *)
Lemma single_record_batch_not_joined :
  posted (snd (monitoring_loop glibc_BUFSIZ (context_of fully_specified 3)
                 (loop_entry EmptyString) [client_sends (heartbeat +:+ LF)]))
  = [envelope "7a3c"
       (batch_text
          [record_of glibc_BUFSIZ (context_of fully_specified 3)
             (client_sends (heartbeat +:+ LF))])]
  /\ posted (snd (monitoring_loop glibc_BUFSIZ (context_of fully_specified 3)
                    (loop_entry EmptyString) [client_sends (heartbeat +:+ LF)]))
     <> [envelope "7a3c"
           (joined
              [record_of glibc_BUFSIZ (context_of fully_specified 3)
                 (client_sends (heartbeat +:+ LF))])].
Proof.
  split; [vm_compute; reflexivity |].
  vm_compute. intros H. discriminate H.
Qed.

(** C10 — every batch text ends with the delimiter. Evaluated on a line
    whose record is [BUFSIZ - 8] characters long: [snprintf] returns
    [BUFSIZ], which is not above [BUFSIZ], so the record is counted although
    only [BUFSIZ - 1] characters were written; the batch forwarded ends with
    the delimiter short of its last colon. *)
Theorem batch_delimiter_clipped :
  let ctx := context_of fully_specified 3 in
  let w := client_sends (long_line +:+ LF) in
  let record := record_of glibc_BUFSIZ ctx w in
  record = long_line +:+ identity_tokens ctx
  /\ Z.of_nat (String.length (record +:+ delimiter)) = Z.of_nat glibc_BUFSIZ
  /\ loop_body glibc_BUFSIZ ctx (loop_entry EmptyString) w
     = (Next, emptied,
        received ctx w
        ++ send_msg_to_mq (curl w) (record +:+ ":delim1") ctx
        ++ [SysClose (accept_ret w)])
  /\ posted (snd (loop_body glibc_BUFSIZ ctx (loop_entry EmptyString) w))
     = [envelope "7a3c" (record +:+ ":delim1")]
  /\ record +:+ ":delim1" <> batch_text [record].
Proof.
  cbn zeta.
  split; [vm_compute; reflexivity |].
  split; [vm_compute; reflexivity |].
  split; [vm_compute; reflexivity |].
  split; [vm_compute; reflexivity |].
  apply String.eqb_neq. vm_compute. reflexivity.
Qed.

Lemma batch_text_ends_with_delimiter (records : list string) (r : string) :
  batch_text (records ++ [r]) = (batch_text records +:+ r) +:+ delimiter.
Proof. now rewrite batch_text_snoc, append_assoc. Qed.

(** ** The body of a request *)

Lemma envelope_text (routing_key payload : string) :
  sprintf envelope_format [ArgS (Some routing_key); ArgS (Some payload)]
  = envelope routing_key payload.
Proof. reflexivity. Qed.

Lemma posted_send_msg_to_mq
  (c : curl_answers) (msg_buff : string) (ctx : MonitoringThreadContext)
  (uuid : string) :
  wf_uuid ctx = Some uuid ->
  posted (send_msg_to_mq c msg_buff ctx)
  = if curl_handle c then [envelope uuid msg_buff] else [].
Proof.
  intros Huuid. unfold send_msg_to_mq. rewrite Huuid, envelope_text.
  destruct (curl_handle c); [| reflexivity].
  destruct (curl_result c =? CURLE_OK); reflexivity.
Qed.

(** ** Draining (C3) *)


(** With the factor at 1 nothing stays counted from one iteration to the
    next: whenever the loop is at its top or left, the counter is 0. *)
Lemma nothing_pending_between_iterations
  (BUFSIZ : nat) (ctx : MonitoringThreadContext) (ws : list iteration) :
  forall (st : loop_state),
  msg_counter st = 0 ->
  msg_counter (snd (fst (monitoring_loop BUFSIZ ctx st ws))) = 0.
Proof.
  induction ws as [|w ws IH]; intros st Hc; [assumption |].
  cbn [monitoring_loop].
  assert (msg_counter (snd (fst (loop_body BUFSIZ ctx st w))) = 0) as Hstep.
  { unfold loop_body, snprintf.
    repeat match goal with
    | |- context [if ?b then _ else _] => destruct b eqn:?
    | |- context [match strstr ?a ?b with _ => _ end] =>
        destruct (strstr a b) as [[|?]|]
    end; cbn [fst snd msg_counter]; try assumption; try reflexivity.
    match goal with
    | H : (_ + 1 =? MSG_AGGR_FACTOR) = false |- _ =>
        rewrite Hc in H; vm_compute in H; discriminate H
    end. }
  destruct (loop_body BUFSIZ ctx st w) as [[[|] st1] t1]; cbn [fst snd] in *.
  - specialize (IH st1 Hstep).
    destruct (monitoring_loop BUFSIZ ctx st1 ws) as [[f st2] t2]. exact IH.
  - exact Hstep.
Qed.





(** ** Shutdown signal (C4) *)

(** C4 — an iteration in which [poll] reports the signal pipe readable
    leaves the loop without calling [accept], whether or not the socket is
    readable too; it prints the warning exactly when the socket is. *)
Theorem shutdown_signal_leaves_without_accepting
  (BUFSIZ : nat) (ctx : MonitoringThreadContext)
  (st : loop_state) (w : iteration) (rest : list iteration) :
  0 < poll_ret w ->
  Z.land (pipe_revents w) POLLIN <> 0 ->
  monitoring_loop BUFSIZ ctx st (w :: rest)
  = (Break, st,
     SysPoll (poll_ret w)
     :: (if negb (Z.land (socket_revents w) POLLIN =? 0)
         then [clients_left_behind] else []))
  /\ List.filter is_accept (snd (monitoring_loop BUFSIZ ctx st (w :: rest))) = []
  /\ forward_calls (snd (monitoring_loop BUFSIZ ctx st (w :: rest))) = 0%nat
  /\ (List.In clients_left_behind (snd (monitoring_loop BUFSIZ ctx st (w :: rest)))
      <-> Z.land (socket_revents w) POLLIN <> 0).
Proof.
  intros Hpoll Hsignal.
  assert (monitoring_loop BUFSIZ ctx st (w :: rest)
          = (Break, st,
             SysPoll (poll_ret w)
             :: (if negb (Z.land (socket_revents w) POLLIN =? 0)
                 then [clients_left_behind] else []))) as Hrun.
  { cbn [monitoring_loop]. unfold loop_body.
    replace (poll_ret w <=? 0) with false by (symmetry; apply Z.leb_gt; lia).
    replace (Z.land (pipe_revents w) POLLIN =? 0) with false
      by (symmetry; now apply Z.eqb_neq).
    reflexivity. }
  rewrite Hrun. cbn [snd]. split; [reflexivity |].
  destruct (Z.eqb_spec (Z.land (socket_revents w) POLLIN) 0) as [Hs|Hs];
    cbn [negb].
  - repeat split; try reflexivity.
    + intros [Hin|[]]. discriminate Hin.
    + intros Hne. contradiction.
  - repeat split; try reflexivity.
    + intros _. exact Hs.
    + intros _. right. left. reflexivity.
Qed.

Lemma shutdown_signal_leaves_without_accepting_witness :
  monitoring_loop glibc_BUFSIZ (context_of fully_specified 3) emptied
    [shutdown_signalled true; client_sends (heartbeat +:+ LF)]
  = (Break, emptied, [SysPoll 2; clients_left_behind])
  /\ List.filter is_accept
       (snd (monitoring_loop glibc_BUFSIZ (context_of fully_specified 3) emptied
               [shutdown_signalled true; client_sends (heartbeat +:+ LF)])) = []
  /\ forward_calls
       (snd (monitoring_loop glibc_BUFSIZ (context_of fully_specified 3) emptied
               [shutdown_signalled true; client_sends (heartbeat +:+ LF)])) = 0%nat
  /\ (List.In clients_left_behind
        (snd (monitoring_loop glibc_BUFSIZ (context_of fully_specified 3) emptied
                [shutdown_signalled true; client_sends (heartbeat +:+ LF)]))
      <-> Z.land 1 POLLIN <> 0).
Proof.
  apply (shutdown_signal_leaves_without_accepting glibc_BUFSIZ
           (context_of fully_specified 3) emptied (shutdown_signalled true)
           [client_sends (heartbeat +:+ LF)]).
  - reflexivity.
  - vm_compute. lia.
Defined.

(** ** Endpoint allocation (C5) *)

(** A failure of [socket], [bind], [listen], [getsockname] or [gethostname]
    makes the allocator return -1. *)
Lemma endpoint_failure_reported
  (w : endpoint_answers) (host : string) (port : Z) :
  socket_ret w < 0 \/ bind_ret w < 0 \/ listen_ret w < 0
  \/ getsockname_ret w = -1 \/ gethostname_ret w <> 0 ->
  fst (fst (fst (create_ephemeral_endpoint w host port))) = -1.
Proof.
  intros Hfail. unfold create_ephemeral_endpoint.
  destruct (Z.ltb_spec (socket_ret w) 0); [reflexivity |].
  destruct (Z.ltb_spec (bind_ret w) 0); [reflexivity |].
  destruct (Z.ltb_spec (listen_ret w) 0); [reflexivity |].
  destruct (Z.eqb_spec (getsockname_ret w) (-1)); [reflexivity |].
  destruct (Z.eqb_spec (gethostname_ret w) 0); [| reflexivity].
  lia.
Qed.

(** When [bind], [listen] or [getsockname] is the call that fails, the
    last thing the allocator does is close the socket it opened. *)
Lemma endpoint_closed_on_goto_error
  (w : endpoint_answers) (host : string) (port : Z) :
  0 <= socket_ret w ->
  bind_ret w < 0 \/ listen_ret w < 0 \/ getsockname_ret w = -1 ->
  exists before,
    snd (create_ephemeral_endpoint w host port)
    = before ++ [SysClose (socket_ret w)].
Proof.
  intros Hopen Hfail. unfold create_ephemeral_endpoint.
  destruct (Z.ltb_spec (socket_ret w) 0); [lia |].
  destruct (Z.ltb_spec (bind_ret w) 0).
  { eexists [_; _; _]. reflexivity. }
  destruct (Z.ltb_spec (listen_ret w) 0).
  { eexists [_; _; _; _]. reflexivity. }
  destruct (Z.eqb_spec (getsockname_ret w) (-1)).
  { eexists [_; _; _; _; _]. reflexivity. }
  lia.
Qed.

Lemma endpoint_closed_when_listen_fails :
  create_ephemeral_endpoint listen_fails EmptyString 0
  = (-1, EmptyString, 0,
     [SysSocket 3; SysBind 3 0; SysListen 3 1 (-1);
      Printerr ("ERROR[listen]: %s" +:+ LF) [Strerror 98];
      SysClose 3]).
Proof. reflexivity. Qed.

(** C5 — every failure of the allocator returns an error with the socket
    closed. Evaluated with [gethostname] failing after the socket was opened
    on descriptor 3, bound and listening: the allocator returns -1 and never
    closes descriptor 3. *)
Theorem endpoint_left_open_when_gethostname_fails :
  create_ephemeral_endpoint hostname_fails EmptyString 0
  = (-1, EmptyString, 0,
     [SysSocket 3; SysBind 3 0; SysListen 3 1 0; SysGetsockname 3 0;
      SysGethostname (-1);
      Printerr ("ERROR[gethostname]: %s" +:+ LF) [Strerror 36]])
  /\ List.filter (is_close_of 3)
       (snd (create_ephemeral_endpoint hostname_fails EmptyString 0)) = [].
Proof. split; reflexivity. Qed.

(** ** Publication of the endpoint (C6) *)

Lemma publish_lookup
  (BUFSIZ : nat) (env : gmap string string) (interval pid : Z)
  (host : string) (port : Z) :
  let env' := publish BUFSIZ env interval pid host port in
  getenv env' "KICKSTART_MON" = Some "enabled"
  /\ getenv env' "KICKSTART_MON_INTERVAL" = Some (decimal BUFSIZ interval)
  /\ getenv env' "KICKSTART_MON_PID" = Some (decimal BUFSIZ pid)
  /\ getenv env' "KICKSTART_MON_HOST" = Some host
  /\ getenv env' "KICKSTART_MON_PORT" = Some (decimal BUFSIZ port).
Proof.
  unfold publish, setenv, getenv. cbn zeta.
  repeat split; simplify_map_eq; reflexivity.
Qed.

Lemma publish_elsewhere
  (BUFSIZ : nat) (env : gmap string string) (interval pid : Z)
  (host : string) (port : Z) (name : string) :
  ~ List.In name published_keys ->
  getenv (publish BUFSIZ env interval pid host port) name = getenv env name.
Proof.
  intros Hother. unfold publish, setenv, getenv.
  rewrite !lookup_insert_ne; [reflexivity | | | | |];
    intros <-; apply Hother; simpl; tauto.
Qed.

(** The allocator returns a descriptor only when every call succeeded, and
    then hands out the host name and the port the system answered. *)
Lemma endpoint_allocated
  (w : endpoint_answers) (host : string) (port : Z) :
  0 <= fst (fst (fst (create_ephemeral_endpoint w host port))) ->
  fst (create_ephemeral_endpoint w host port)
  = (socket_ret w, ep_hostname w, ep_port w).
Proof.
  unfold create_ephemeral_endpoint.
  repeat match goal with
  | |- context [if ?b then _ else _] => destruct b
  end; cbn [fst snd]; intros H; try reflexivity; lia.
Qed.

(** The environment start leaves behind. *)
Lemma start_environment
  (BUFSIZ : nat) (interval : Z) (w : start_answers) (env : gmap string string) :
  snd (fst (start_monitoring_thread BUFSIZ interval w env))
  = let '(fd, host, port, _) :=
      create_ephemeral_endpoint (endpoint w) (stack_host w) (stack_port w) in
    if fd <? 0 then env else publish BUFSIZ env interval (pid w) host port.
Proof.
  unfold start_monitoring_thread.
  destruct (create_ephemeral_endpoint (endpoint w) (stack_host w) (stack_port w))
    as [[[fd host] port] t_endpoint].
  destruct (fd <? 0); [reflexivity |].
  destruct (initialize_monitoring_context _ calloc_context) as [[rc ctx] t_init].
  repeat match goal with
  | |- context [if ?b then _ else _] => destruct b
  end; reflexivity.
Qed.

(** C6 (as amended) — the endpoint is published as soon as it is allocated,
    before the identity values are looked up: when the allocation fails,
    start returns -1 and leaves the environment as it was; when it succeeds,
    the environment after start holds the enabled flag, the interval, the
    process id, the host name and the port, whatever start returns. *)
Theorem published_once_endpoint_allocated
  (BUFSIZ : nat) (interval : Z) (w : start_answers) (env : gmap string string) :
  let fd :=
    fst (fst (fst (create_ephemeral_endpoint
                     (endpoint w) (stack_host w) (stack_port w)))) in
  let result := start_monitoring_thread BUFSIZ interval w env in
  let env' := snd (fst result) in
  if fd <? 0 then
    fst (fst result) = -1 /\ env' = env
  else
    getenv env' "KICKSTART_MON" = Some "enabled"
    /\ getenv env' "KICKSTART_MON_INTERVAL" = Some (decimal BUFSIZ interval)
    /\ getenv env' "KICKSTART_MON_PID" = Some (decimal BUFSIZ (pid w))
    /\ getenv env' "KICKSTART_MON_HOST" = Some (ep_hostname (endpoint w))
    /\ getenv env' "KICKSTART_MON_PORT"
       = Some (decimal BUFSIZ (ep_port (endpoint w)))
    /\ (forall name,
          ~ List.In name published_keys -> getenv env' name = getenv env name).
Proof.
  cbn zeta. rewrite start_environment.
  pose proof (endpoint_allocated (endpoint w) (stack_host w) (stack_port w))
    as Hok.
  unfold start_monitoring_thread.
  destruct (create_ephemeral_endpoint (endpoint w) (stack_host w) (stack_port w))
    as [[[fd host] port] t_endpoint].
  cbn [fst snd] in *.
  destruct (Z.ltb_spec fd 0) as [Hfd|Hfd]; [split; reflexivity |].
  specialize (Hok Hfd). injection Hok as -> -> ->.
  pose proof (publish_lookup BUFSIZ env interval (pid w)
                (ep_hostname (endpoint w)) (ep_port (endpoint w))) as Hpub.
  cbn zeta in Hpub. destruct Hpub as (H1 & H2 & H3 & H4 & H5).
  repeat split; try assumption.
  intros name Hother. now apply publish_elsewhere.
Qed.

(** C6 as stated fails: with every call granted and PEGASUS_WF_UUID not
    defined, start fails on the missing value, and the five values are in
    the environment all the same. *)
Lemma published_although_start_fails :
  let result := start_monitoring_thread glibc_BUFSIZ 10 start_granted uuid_missing in
  let env' := snd (fst result) in
  fst (fst result) = -1
  /\ List.last (snd result) PthreadExit = not_specified "PEGASUS_WF_UUID"
  /\ List.Forall (fun name => getenv uuid_missing name = None) published_keys
  /\ getenv env' "KICKSTART_MON" = Some "enabled"
  /\ getenv env' "KICKSTART_MON_INTERVAL" = Some "10"
  /\ getenv env' "KICKSTART_MON_PID" = Some "4242"
  /\ getenv env' "KICKSTART_MON_HOST" = Some "worker-17"
  /\ getenv env' "KICKSTART_MON_PORT" = Some "40123"
  /\ ~ (fst (fst result) <> 0 ->
        List.Forall (fun name => getenv env' name = None) published_keys).
Proof.
  cbn zeta.
  repeat match goal with |- _ /\ _ => split end;
    try (vm_compute; reflexivity).
  - repeat constructor.
  - intros Hclaim.
    assert (fst (fst (start_monitoring_thread glibc_BUFSIZ 10 start_granted
                        uuid_missing)) <> 0) as Hfails
      by (vm_compute; discriminate).
    specialize (Hclaim Hfails).
    inversion Hclaim as [|name names Hnone _]; subst.
    vm_compute in Hnone. discriminate Hnone.
Qed.

(** ** Malformed lines (C7) *)

(** An iteration that reads a line not beginning with [ts=] reports it,
    closes the connection and leaves the locals as they were. *)
Lemma loop_body_malformed
  (BUFSIZ : nat) (ctx : MonitoringThreadContext) (st : loop_state) (w : iteration) :
  malformed w = true ->
  loop_body BUFSIZ ctx st w
  = (Next, st,
     received ctx w ++
     [Printerr ("[mon-thread] ERROR: Message did not start with 'ts=': "
                +:+ LF +:+ "%s" +:+ LF)
        [Arg (ArgS (Some (cut_at_newline (recv_line w))))];
      SysClose (accept_ret w)]).
Proof.
  intros Hw. unfold malformed, receives in Hw. zbool.
  unfold loop_body.
  replace (poll_ret w <=? 0) with false by (symmetry; apply Z.leb_gt; lia).
  replace (Z.land (pipe_revents w) POLLIN =? 0) with true
    by (symmetry; now apply Z.eqb_eq).
  replace (accept_ret w <? 0) with false by (symmetry; apply Z.ltb_ge; lia).
  replace (recv_ret w <? 0) with false by (symmetry; apply Z.ltb_ge; lia).
  cbn [negb].
  destruct (strstr (cut_at_newline (recv_line w)) "ts=") as [[|k]|] eqn:Hfound;
    try reflexivity.
  apply strstr_at_start in Hfound. rewrite prefix_cut_at_newline in Hfound.
  congruence.
Qed.

(** When [line] holds, after [recv], a C string that does not begin with
    [ts=], the iteration changes neither counter nor offset nor buffer and
    forwards nothing, and a run of the loop in which it occurs ends as the
    run without it does, with the same locals and the same traffic with the
    broker. *)
Lemma text_without_timestamp_discarded
  (BUFSIZ : nat) (ctx : MonitoringThreadContext) (st : loop_state)
  (ws1 ws2 : list iteration) (w : iteration) :
  malformed w = true ->
  (forall st', exists t,
      loop_body BUFSIZ ctx st' w = (Next, st', t)
      /\ curl_calls t = [] /\ forward_calls t = 0%nat)
  /\ fst (monitoring_loop BUFSIZ ctx st (ws1 ++ w :: ws2))
     = fst (monitoring_loop BUFSIZ ctx st (ws1 ++ ws2))
  /\ curl_calls (snd (monitoring_loop BUFSIZ ctx st (ws1 ++ w :: ws2)))
     = curl_calls (snd (monitoring_loop BUFSIZ ctx st (ws1 ++ ws2)))
  /\ posted (snd (monitoring_loop BUFSIZ ctx st (ws1 ++ w :: ws2)))
     = posted (snd (monitoring_loop BUFSIZ ctx st (ws1 ++ ws2))).
Proof.
  intros Hw. split.
  { intros st'. eexists. split; [now apply loop_body_malformed |].
    split; reflexivity. }
  rewrite !monitoring_loop_app.
  destruct (monitoring_loop BUFSIZ ctx st ws1) as [[[|] st1] t1];
    [| repeat split].
  cbn [monitoring_loop]. rewrite (loop_body_malformed BUFSIZ ctx st1 w Hw).
  destruct (monitoring_loop BUFSIZ ctx st1 ws2) as [[f st2] t2].
  cbn [fst snd]. split; [reflexivity |].
  rewrite !curl_calls_app, !posted_app. split; reflexivity.
Qed.

(** ** The line a connection delivers *)

Lemma first_line_append (s behind_it line : string) :
  first_line s = Some line -> first_line (s +:+ behind_it) = Some line.
Proof.
  revert line. induction s as [|c s IH]; intros line Hline; [discriminate Hline |].
  rewrite append_cons. cbn [first_line] in *.
  destruct (Ascii.eqb c (ascii_of_nat 10) || Ascii.eqb c NUL); [exact Hline |].
  destruct (first_line s) as [l|]; [| discriminate Hline].
  now rewrite (IH l eq_refl).
Qed.

Lemma receives_iteration_of (a : arrival) (n : Z) (line : string) :
  reaches_recv a = true -> 0 <= n -> receives (iteration_of a n line) = true.
Proof.
  intros Hreach Hn. unfold receives, iteration_of.
  cbn [poll_ret pipe_revents accept_ret recv_ret].
  unfold reaches_recv in Hreach. rewrite Hreach.
  apply Z.leb_le. exact Hn.
Qed.

(** A connection whose bytes hold a line feed or a terminator is read as
    its own first line, whatever [line] held before. *)
Lemma line_step_own_line
  (BUFSIZ : nat) (raw : string) (a : arrival) (line : string) :
  own_line BUFSIZ a = Some line ->
  exists n raw',
    line_step BUFSIZ raw a = Some (iteration_of a n line, raw')
    /\ receives (iteration_of a n line) = true.
Proof.
  unfold own_line, line_step.
  destruct (reaches_recv a) eqn:Hreach; [| discriminate].
  destruct (arr_recv a) as [data|]; [| discriminate].
  intros Hline. unfold stored. cbn zeta.
  rewrite (first_line_append _ _ _ Hline).
  eexists _, _. split; [reflexivity |].
  apply receives_iteration_of; [exact Hreach | lia].
Qed.

(** Such a line, when it does not begin with [ts=], is discarded: the
    iteration changes no local and has no traffic with the broker. *)
Lemma own_malformed_line_discarded
  (BUFSIZ : nat) (ctx : MonitoringThreadContext) (st : loop_state)
  (raw : string) (a : arrival) (line : string) :
  own_line BUFSIZ a = Some line ->
  String.prefix "ts=" line = false ->
  exists w raw' t,
    line_step BUFSIZ raw a = Some (w, raw')
    /\ loop_body BUFSIZ ctx st w = (Next, st, t)
    /\ curl_calls t = [] /\ forward_calls t = 0%nat.
Proof.
  intros Hown Hts.
  destruct (line_step_own_line BUFSIZ raw a line Hown) as (n & raw' & Hstep & Hrecv).
  eexists _, raw', _. split; [exact Hstep |].
  split; [apply loop_body_malformed |].
  - unfold malformed. rewrite Hrecv. cbn [iteration_of recv_line]. now rewrite Hts.
  - split; reflexivity.
Qed.

(** C7 — the line a connection delivers is what [line] holds after [recv],
    and [recv] terminates nothing: behind the bytes received [line] holds
    what it held before. Evaluated on [line] zeroed at the start and a
    client that sends the heartbeat line: one body is posted. A second
    connection that is closed without a byte ([recv] returns 0) delivers the
    empty line, which does not begin with [ts=]; the iteration finds the
    heartbeat line in [line] again, and a second body with the same record
    is posted. So is one for a connection that delivers the single byte
    [t]. *)
Theorem silent_connection_forwarded_again :
  let ctx := context_of fully_specified 3 in
  let zeroed := filler glibc_BUFSIZ NUL in
  let body := envelope "7a3c" (batch_text [enrich glibc_BUFSIZ ctx heartbeat]) in
  String.prefix "ts=" EmptyString = false
  /\ String.prefix "ts=" "t" = false
  /\ relayed (relay_loop glibc_BUFSIZ ctx (loop_entry EmptyString) zeroed
                [connection (heartbeat +:+ LF)])
     = Some [body]
  /\ option_map fst
       (line_step glibc_BUFSIZ
          (terminated (stored glibc_BUFSIZ zeroed (heartbeat +:+ LF)))
          (connection EmptyString))
     = Some (iteration_of (connection EmptyString) 0 heartbeat)
  /\ relayed (relay_loop glibc_BUFSIZ ctx (loop_entry EmptyString) zeroed
                [connection (heartbeat +:+ LF); connection EmptyString])
     = Some [body; body]
  /\ relayed (relay_loop glibc_BUFSIZ ctx (loop_entry EmptyString) zeroed
                [connection (heartbeat +:+ LF); connection "t"])
     = Some [body; body].
Proof.
  cbn zeta.
  split; [reflexivity |].
  split; [reflexivity |].
  split; [vm_compute; reflexivity |].
  split; [vm_compute; reflexivity |].
  split; [vm_compute; reflexivity |].
  vm_compute; reflexivity.
Qed.

(** ** Configuration (C8) *)

(** [initialize_monitoring_context] depends on the environment through the
    eight names it looks up only. *)
Lemma initialize_reads_identity_keys
  (env1 env2 : gmap string string) (ctx : MonitoringThreadContext) :
  (forall name, List.In name identity_keys -> getenv env1 name = getenv env2 name) ->
  initialize_monitoring_context env1 ctx = initialize_monitoring_context env2 ctx.
Proof.
  intros Hsame. unfold initialize_monitoring_context.
  rewrite (Hsame "KICKSTART_MON_ENDPOINT_URL") by (simpl; tauto).
  rewrite (Hsame "KICKSTART_MON_ENDPOINT_CREDENTIALS") by (simpl; tauto).
  rewrite (Hsame "PEGASUS_WF_UUID") by (simpl; tauto).
  rewrite (Hsame "PEGASUS_WF_LABEL") by (simpl; tauto).
  rewrite (Hsame "PEGASUS_DAG_JOB_ID") by (simpl; tauto).
  rewrite (Hsame "CONDOR_JOBID") by (simpl; tauto).
  rewrite (Hsame "PEGASUS_XFORMATION") by (simpl; tauto).
  rewrite (Hsame "PEGASUS_TASK_ID") by (simpl; tauto).
  reflexivity.
Qed.

(** Publishing the endpoint does not touch the identity values. *)
Lemma initialize_after_publish
  (BUFSIZ : nat) (env : gmap string string) (interval pid : Z)
  (host : string) (port : Z) (ctx : MonitoringThreadContext) :
  initialize_monitoring_context (publish BUFSIZ env interval pid host port) ctx
  = initialize_monitoring_context env ctx.
Proof.
  apply initialize_reads_identity_keys. intros name Hin.
  apply publish_elsewhere. intros Hpub.
  simpl in Hin, Hpub.
  repeat match goal with
  | H : _ \/ _ |- _ => destruct H
  | H : False |- _ => destruct H
  end; subst; discriminate.
Qed.

Lemma endpoint_starts_no_thread
  (w : endpoint_answers) (host : string) (port : Z) :
  List.filter is_thread_start (snd (create_ephemeral_endpoint w host port)) = [].
Proof.
  unfold create_ephemeral_endpoint.
  repeat match goal with
  | |- context [if ?b then _ else _] => destruct b
  end; reflexivity.
Qed.

(** When the identity values are incomplete start returns -1 without
    creating the pipe or the thread, and the last thing it prints is the
    complaint of [initialize_monitoring_context]. *)
Lemma start_without_identity
  (BUFSIZ : nat) (interval : Z) (w : start_answers) (env : gmap string string)
  (ctx' : MonitoringThreadContext) (complaint : action) :
  initialize_monitoring_context env calloc_context = (-1, ctx', [complaint]) ->
  is_thread_start complaint = false ->
  fst (fst (start_monitoring_thread BUFSIZ interval w env)) = -1
  /\ List.filter is_thread_start
       (snd (start_monitoring_thread BUFSIZ interval w env)) = []
  /\ (0 <= fst (fst (fst (create_ephemeral_endpoint
                            (endpoint w) (stack_host w) (stack_port w)))) ->
      List.last (snd (start_monitoring_thread BUFSIZ interval w env)) PthreadExit
      = complaint).
Proof.
  intros Hinit Hcomplaint. unfold start_monitoring_thread.
  pose proof (endpoint_starts_no_thread (endpoint w) (stack_host w) (stack_port w))
    as Hnone.
  destruct (create_ephemeral_endpoint (endpoint w) (stack_host w) (stack_port w))
    as [[[fd host] port] t_endpoint].
  cbn [fst snd] in *.
  destruct (Z.ltb_spec fd 0) as [Hfd|Hfd]; cbn [fst snd].
  - split; [reflexivity |]. split; [| lia].
    now rewrite List.filter_app, Hnone.
  - rewrite initialize_after_publish, Hinit.
    replace (-1 <? 0) with true by reflexivity. cbn [fst snd].
    split; [reflexivity |]. split.
    + rewrite List.filter_app, Hnone. cbn [List.filter app].
      now rewrite Hcomplaint.
    + intros _. apply List.last_last.
Qed.

(** C8 — the six required values are looked up in a fixed order. When one
    is not defined, collection returns -1 at the first such name and prints
    one message, [ERROR: <name> not specified] and a line feed, [<name>]
    being that name; start returns -1 without creating the thread, and that
    message is the last thing it prints. When all six are defined,
    collection returns 0 and the context holds them, with the two optional
    fields as the environment has them: absent when it does not define
    them. *)
Theorem required_identity_checked
  (env : gmap string string) (ctx : MonitoringThreadContext) :
  match first_missing env with
  | Some name =>
      List.In name
        ["KICKSTART_MON_ENDPOINT_URL"; "KICKSTART_MON_ENDPOINT_CREDENTIALS";
         "PEGASUS_WF_UUID"; "PEGASUS_WF_LABEL"; "PEGASUS_DAG_JOB_ID";
         "CONDOR_JOBID"]
      /\ getenv env name = None
      /\ (exists ctx',
            initialize_monitoring_context env ctx
            = (-1, ctx',
               [Printerr ("ERROR: " +:+ name +:+ " not specified"
                          +:+ String (ascii_of_nat 10) EmptyString) []]))
      /\ (forall BUFSIZ interval w,
            fst (fst (start_monitoring_thread BUFSIZ interval w env)) = -1
            /\ List.filter is_thread_start
                 (snd (start_monitoring_thread BUFSIZ interval w env)) = []
            /\ (0 <= fst (fst (fst (create_ephemeral_endpoint
                                      (endpoint w) (stack_host w) (stack_port w)))) ->
                List.last (snd (start_monitoring_thread BUFSIZ interval w env))
                  PthreadExit
                = Printerr ("ERROR: " +:+ name +:+ " not specified"
                            +:+ String (ascii_of_nat 10) EmptyString) []))
  | None =>
      List.Forall (fun name => getenv env name <> None) required_keys
      /\ exists ctx',
           initialize_monitoring_context env ctx = (0, ctx', [])
           /\ url ctx' = getenv env "KICKSTART_MON_ENDPOINT_URL"
           /\ credentials ctx' = getenv env "KICKSTART_MON_ENDPOINT_CREDENTIALS"
           /\ wf_uuid ctx' = getenv env "PEGASUS_WF_UUID"
           /\ wf_label ctx' = getenv env "PEGASUS_WF_LABEL"
           /\ dag_job_id ctx' = getenv env "PEGASUS_DAG_JOB_ID"
           /\ condor_job_id ctx' = getenv env "CONDOR_JOBID"
           /\ xformation ctx' = getenv env "PEGASUS_XFORMATION"
           /\ task_id ctx' = getenv env "PEGASUS_TASK_ID"
           /\ socket ctx' = socket ctx
  end.
Proof.
  assert (forall name ctx',
            initialize_monitoring_context env calloc_context
            = (-1, ctx',
               [Printerr ("ERROR: " +:+ name +:+ " not specified"
                          +:+ String (ascii_of_nat 10) EmptyString) []]) ->
            forall BUFSIZ interval w,
            fst (fst (start_monitoring_thread BUFSIZ interval w env)) = -1
            /\ List.filter is_thread_start
                 (snd (start_monitoring_thread BUFSIZ interval w env)) = []
            /\ (0 <= fst (fst (fst (create_ephemeral_endpoint
                                      (endpoint w) (stack_host w) (stack_port w)))) ->
                List.last (snd (start_monitoring_thread BUFSIZ interval w env))
                  PthreadExit
                = Printerr ("ERROR: " +:+ name +:+ " not specified"
                            +:+ String (ascii_of_nat 10) EmptyString) [])) as Hstart.
  { intros name ctx' Hinit BUFSIZ interval w.
    now apply (start_without_identity BUFSIZ interval w env ctx'). }
  unfold first_missing, required_keys. cbn [List.find].
  unfold initialize_monitoring_context in *.
  destruct (getenv env "KICKSTART_MON_ENDPOINT_URL") eqn:E1;
    [| split; [simpl; tauto |]; split; [assumption |];
       split; [eexists; reflexivity | eapply Hstart; reflexivity]].
  destruct (getenv env "KICKSTART_MON_ENDPOINT_CREDENTIALS") eqn:E2;
    [| split; [simpl; tauto |]; split; [assumption |];
       split; [eexists; reflexivity | eapply Hstart; reflexivity]].
  destruct (getenv env "PEGASUS_WF_UUID") eqn:E3;
    [| split; [simpl; tauto |]; split; [assumption |];
       split; [eexists; reflexivity | eapply Hstart; reflexivity]].
  destruct (getenv env "PEGASUS_WF_LABEL") eqn:E4;
    [| split; [simpl; tauto |]; split; [assumption |];
       split; [eexists; reflexivity | eapply Hstart; reflexivity]].
  destruct (getenv env "PEGASUS_DAG_JOB_ID") eqn:E5;
    [| split; [simpl; tauto |]; split; [assumption |];
       split; [eexists; reflexivity | eapply Hstart; reflexivity]].
  destruct (getenv env "CONDOR_JOBID") eqn:E6;
    [| split; [simpl; tauto |]; split; [assumption |];
       split; [eexists; reflexivity | eapply Hstart; reflexivity]].
  split.
  - repeat constructor; congruence.
  - eexists. split; [reflexivity |]. cbn. repeat split; reflexivity.
Qed.

(** ** Forwarding (C9) *)

Lemma drop_length_append (a b : string) : drop (String.length a) (a +:+ b) = b.
Proof.
  induction a as [|x a IH]; [reflexivity |].
  rewrite append_cons. exact IH.
Qed.

Lemma behind_append (literal s : string) : behind literal (literal +:+ s) = Some s.
Proof. unfold behind. now rewrite prefix_append, drop_length_append. Qed.

(** A plain text is read back as itself from the literal that holds it. *)
Lemma read_json_string_plain (text rest : string) :
  plain text = true ->
  read_json_string (text +:+ String quote rest) = Some (text, rest).
Proof.
  induction text as [|c text IH]; intros Hplain.
  - change (EmptyString +:+ String quote rest) with (String quote rest).
    cbn [read_json_string]. now rewrite Ascii.eqb_refl.
  - rewrite append_cons. cbn [plain] in Hplain.
    apply andb_true_iff in Hplain. destruct Hplain as [Hc Hplain].
    apply andb_true_iff in Hc. destruct Hc as [Hc Hcontrol].
    apply andb_true_iff in Hc. destruct Hc as [Hquote Hbackslash].
    apply negb_true_iff in Hquote, Hbackslash, Hcontrol.
    cbn [read_json_string]. rewrite Hquote, Hbackslash, Hcontrol.
    now rewrite (IH Hplain).
Qed.

(** When neither the workflow UUID nor the batch text holds a double quote,
    a backslash or a control character, the body is the JSON object whose
    routing key is the UUID and whose payload is the batch text. *)
Lemma plain_envelope_reads_back (uuid payload : string) :
  plain uuid = true -> plain payload = true ->
  read_envelope (envelope uuid payload) = Some (uuid, payload).
Proof.
  intros Huuid Hpayload. unfold envelope.
  change (dq "{'properties':{},'routing_key':'") with json_open.
  change (dq "','payload':'") with (String quote json_middle).
  change (dq "','payload_encoding':'string'}") with (String quote json_close).
  unfold read_envelope. rewrite (append_cons quote json_middle).
  rewrite behind_append, (read_json_string_plain uuid _ Huuid).
  rewrite behind_append, (read_json_string_plain payload _ Hpayload).
  reflexivity.
Qed.

(** C9 — [send_msg_to_mq] copies the workflow UUID and the batch text
    between the double quotes of its template as they are (lines 143-144).
    Evaluated on three lines. For the heartbeat line the body posted is the
    JSON object of the claim: read back, its routing key is the UUID and its
    payload the batch text. For a line with a quoted word the body posted
    is not a JSON object: the payload ends at the first double quote of the
    line and a member does not follow. For a line with a backslash the body
    is a JSON object whose payload is another text than the batch: [\t] is
    read as a tabulation. *)
Theorem quoted_line_forwarded_unescaped :
  let ctx := context_of fully_specified 3 in
  let batch line := batch_text [enrich glibc_BUFSIZ ctx line] in
  let body line :=
    json_open +:+ "7a3c" +:+ json_quote +:+ json_middle
    +:+ batch line +:+ json_quote +:+ json_close in
  let posts line :=
    posted (snd (loop_body glibc_BUFSIZ ctx (loop_entry EmptyString)
                   (client_sends (line +:+ LF)))) in
  (posts heartbeat = [body heartbeat]
   /\ read_envelope (body heartbeat) = Some ("7a3c", batch heartbeat))
  /\ (posts quoted_line = [body quoted_line]
      /\ read_envelope (body quoted_line) = None)
  /\ (posts path_line = [body path_line]
      /\ exists payload,
           read_envelope (body path_line) = Some ("7a3c", payload)
           /\ payload <> batch path_line).
Proof.
  cbn zeta.
  split; [split; vm_compute; reflexivity |].
  split; [split; vm_compute; reflexivity |].
  split; [vm_compute; reflexivity |].
  eexists. split; [vm_compute; reflexivity |].
  apply String.eqb_neq. vm_compute. reflexivity.
Qed.

(** * Further properties of the code *)

(** ** Readings of traces that are put together *)

Lemma accepted_fds_app (t1 t2 : list action) :
  accepted_fds (t1 ++ t2) = accepted_fds t1 ++ accepted_fds t2.
Proof.
  induction t1 as [|a t1 IH]; [reflexivity |].
  destruct a; simpl; rewrite ?IH; reflexivity.
Qed.

Lemma closed_fds_app (t1 t2 : list action) :
  closed_fds (t1 ++ t2) = closed_fds t1 ++ closed_fds t2.
Proof.
  induction t1 as [|a t1 IH]; [reflexivity |].
  destruct a; simpl; rewrite ?IH; reflexivity.
Qed.

Lemma requests_app (t1 t2 : list action) :
  requests (t1 ++ t2) = requests t1 ++ requests t2.
Proof.
  induction t1 as [|a t1 IH]; [reflexivity |].
  destruct a; simpl; rewrite ?IH; reflexivity.
Qed.

Lemma descriptors_app (l1 l2 : list Z) :
  descriptors (l1 ++ l2) = descriptors l1 ++ descriptors l2.
Proof. apply List.filter_app. Qed.

(** The forwarder accepts no connection and closes no descriptor. *)
Lemma send_msg_to_mq_no_descriptor
  (c : curl_answers) (msg_buff : string) (ctx : MonitoringThreadContext) :
  accepted_fds (send_msg_to_mq c msg_buff ctx) = []
  /\ closed_fds (send_msg_to_mq c msg_buff ctx) = [].
Proof.
  unfold send_msg_to_mq.
  destruct (curl_handle c); [| split; reflexivity].
  destruct (curl_result c =? CURLE_OK); split; reflexivity.
Qed.

(** ** Connections (X1) *)

Lemma loop_body_closes_what_it_accepts
  (BUFSIZ : nat) (ctx : MonitoringThreadContext) (st : loop_state) (w : iteration) :
  descriptors (closed_fds (snd (loop_body BUFSIZ ctx st w)))
  = descriptors (accepted_fds (snd (loop_body BUFSIZ ctx st w))).
Proof.
  destruct (send_msg_to_mq_no_descriptor (curl w)
              (write_at (aggr_msg_buffer st) (aggr_msg_buffer_offset st)
                 (take (BUFSIZ - 1)
                    (format aggregate_format
                       [ArgS (Some (enrich BUFSIZ ctx (cut_at_newline (recv_line w))))])))
              ctx) as [Hacc Hclo].
  unfold loop_body, snprintf.
  repeat match goal with
  | |- context [if ?b then _ else _] => destruct b eqn:?
  | |- context [match strstr ?a ?b with _ => _ end] =>
      destruct (strstr a b) as [[|?]|]
  end;
  cbn [fst snd app closed_fds accepted_fds];
  rewrite ?closed_fds_app, ?accepted_fds_app, ?Hacc, ?Hclo;
  cbn [fst snd app closed_fds accepted_fds descriptors List.filter];
  try reflexivity;
  repeat match goal with
  | H : (accept_ret w <? 0) = _ |- _ =>
      first [apply Z.ltb_lt in H | apply Z.ltb_ge in H]
  end;
  destruct (Z.leb_spec 0 (accept_ret w)); try lia; reflexivity.
Qed.

(** X1 — in any run of the loop, the descriptors closed are the
    descriptors [accept] returned, one close for each, in the same order:
    no connection stays open from one iteration to the next, and the loop
    closes nothing else. *)
Theorem loop_closes_every_connection
  (BUFSIZ : nat) (ctx : MonitoringThreadContext) (ws : list iteration) :
  forall st : loop_state,
  descriptors (closed_fds (snd (monitoring_loop BUFSIZ ctx st ws)))
  = descriptors (accepted_fds (snd (monitoring_loop BUFSIZ ctx st ws))).
Proof.
  induction ws as [|w ws IH]; intros st; [reflexivity |].
  cbn [monitoring_loop].
  pose proof (loop_body_closes_what_it_accepts BUFSIZ ctx st w) as Hstep.
  destruct (loop_body BUFSIZ ctx st w) as [[[|] st1] t1]; cbn [snd] in *.
  - specialize (IH st1).
    destruct (monitoring_loop BUFSIZ ctx st1 ws) as [[f st2] t2]; cbn [snd] in *.
    now rewrite closed_fds_app, accepted_fds_app, !descriptors_app, Hstep, IH.
  - exact Hstep.
Qed.

(** ** Failures of the broker (X2) *)

Lemma loop_body_whatever_the_broker
  (BUFSIZ : nat) (ctx : MonitoringThreadContext) (st : loop_state)
  (w w' : iteration) :
  same_but_curl w w' ->
  fst (loop_body BUFSIZ ctx st w) = fst (loop_body BUFSIZ ctx st w')
  /\ forward_calls (snd (loop_body BUFSIZ ctx st w))
     = forward_calls (snd (loop_body BUFSIZ ctx st w')).
Proof.
  intros (H1 & H2 & H3 & H4 & H5 & H6 & H7).
  unfold loop_body, snprintf. rewrite <- H1, <- H2, <- H3, <- H4, <- H5, <- H6, <- H7.
  repeat match goal with
  | |- context [if ?b then _ else _] => destruct b
  | |- context [match strstr ?a ?b with _ => _ end] =>
      destruct (strstr a b) as [[|?]|]
  end;
  cbn [fst snd]; split; try reflexivity.
  now rewrite !forward_calls_app, !send_msg_to_mq_one_call.
Qed.

(** X2 — what libcurl answers changes nothing in the course of the loop:
    two runs that differ only in those answers end the same way, with the
    same locals, after the same number of forward calls. A batch the broker
    did not get is neither sent again nor kept. *)
Theorem loop_goes_on_whatever_the_broker
  (BUFSIZ : nat) (ctx : MonitoringThreadContext) (ws ws' : list iteration) :
  List.Forall2 same_but_curl ws ws' ->
  forall st : loop_state,
  fst (monitoring_loop BUFSIZ ctx st ws) = fst (monitoring_loop BUFSIZ ctx st ws')
  /\ forward_calls (snd (monitoring_loop BUFSIZ ctx st ws))
     = forward_calls (snd (monitoring_loop BUFSIZ ctx st ws')).
Proof.
  induction 1 as [|w w' ws ws' Hw Hws IH]; intros st; [split; reflexivity |].
  cbn [monitoring_loop].
  destruct (loop_body_whatever_the_broker BUFSIZ ctx st w w' Hw) as [Hst Hcalls].
  destruct (loop_body BUFSIZ ctx st w) as [[f1 st1] t1].
  destruct (loop_body BUFSIZ ctx st w') as [[f1' st1'] t1'].
  cbn [fst snd] in *. injection Hst as -> ->.
  destruct f1'; [| split; [reflexivity | exact Hcalls]].
  destruct (IH st1') as [Hrest Hrest_calls].
  destruct (monitoring_loop BUFSIZ ctx st1' ws) as [[f2 st2] t2].
  destruct (monitoring_loop BUFSIZ ctx st1' ws') as [[f2' st2'] t2'].
  cbn [fst snd] in *. injection Hrest as -> ->.
  split; [reflexivity |].
  now rewrite !forward_calls_app, Hcalls, Hrest_calls.
Qed.

Lemma loop_goes_on_whatever_the_broker_witness :
  fst (monitoring_loop glibc_BUFSIZ (context_of fully_specified 3) emptied
         [heartbeat_with curl_fine; heartbeat_with curl_fine])
  = fst (monitoring_loop glibc_BUFSIZ (context_of fully_specified 3) emptied
           [heartbeat_with {| curl_handle := true; curl_result := 7 |};
            heartbeat_with {| curl_handle := false; curl_result := 0 |}])
  /\ forward_calls
       (snd (monitoring_loop glibc_BUFSIZ (context_of fully_specified 3) emptied
               [heartbeat_with curl_fine; heartbeat_with curl_fine]))
     = forward_calls
         (snd (monitoring_loop glibc_BUFSIZ (context_of fully_specified 3) emptied
                 [heartbeat_with {| curl_handle := true; curl_result := 7 |};
                  heartbeat_with {| curl_handle := false; curl_result := 0 |}])).
Proof.
  apply (loop_goes_on_whatever_the_broker glibc_BUFSIZ
           (context_of fully_specified 3)
           [heartbeat_with curl_fine; heartbeat_with curl_fine]
           [heartbeat_with {| curl_handle := true; curl_result := 7 |};
            heartbeat_with {| curl_handle := false; curl_result := 0 |}]).
  repeat constructor.
Defined.

(** ** The buffer between iterations (X3, X4) *)

Lemma write_at_start (buf w : string) : write_at buf 0 w = w.
Proof.
  unfold write_at.
  replace (0 <=? Z.of_nat (String.length buf)) with true
    by (symmetry; apply Z.leb_le; lia).
  reflexivity.
Qed.

(** With nothing counted and the offset at 0, an iteration does not look at
    what the buffer holds, and leaves nothing counted and the offset at 0. *)
Lemma loop_body_at_buffer_start
  (BUFSIZ : nat) (ctx : MonitoringThreadContext) (st st' : loop_state)
  (w : iteration) :
  msg_counter st = 0 -> aggr_msg_buffer_offset st = 0 ->
  msg_counter st' = 0 -> aggr_msg_buffer_offset st' = 0 ->
  fst (fst (loop_body BUFSIZ ctx st w)) = fst (fst (loop_body BUFSIZ ctx st' w))
  /\ snd (loop_body BUFSIZ ctx st w) = snd (loop_body BUFSIZ ctx st' w)
  /\ msg_counter (snd (fst (loop_body BUFSIZ ctx st w))) = 0
  /\ aggr_msg_buffer_offset (snd (fst (loop_body BUFSIZ ctx st w))) = 0
  /\ msg_counter (snd (fst (loop_body BUFSIZ ctx st' w))) = 0
  /\ aggr_msg_buffer_offset (snd (fst (loop_body BUFSIZ ctx st' w))) = 0.
Proof.
  intros Hc Ho Hc' Ho'. unfold loop_body, snprintf.
  rewrite Hc, Ho, Hc', Ho', !write_at_start.
  replace (0 + 1 =? MSG_AGGR_FACTOR) with true by (vm_compute; reflexivity).
  repeat match goal with
  | |- context [if ?b then _ else _] => destruct b
  | |- context [match strstr ?a ?b with _ => _ end] =>
      destruct (strstr a b) as [[|?]|]
  end;
  cbn [fst snd msg_counter aggr_msg_buffer_offset]; repeat split; assumption.
Qed.

Lemma monitoring_loop_at_buffer_start
  (BUFSIZ : nat) (ctx : MonitoringThreadContext) (ws : list iteration) :
  forall st st' : loop_state,
  msg_counter st = 0 -> aggr_msg_buffer_offset st = 0 ->
  msg_counter st' = 0 -> aggr_msg_buffer_offset st' = 0 ->
  fst (fst (monitoring_loop BUFSIZ ctx st ws))
  = fst (fst (monitoring_loop BUFSIZ ctx st' ws))
  /\ snd (monitoring_loop BUFSIZ ctx st ws) = snd (monitoring_loop BUFSIZ ctx st' ws)
  /\ msg_counter (snd (fst (monitoring_loop BUFSIZ ctx st ws))) = 0
  /\ aggr_msg_buffer_offset (snd (fst (monitoring_loop BUFSIZ ctx st ws))) = 0.
Proof.
  induction ws as [|w ws IH]; intros st st' Hc Ho Hc' Ho'.
  - cbn [monitoring_loop fst snd]. auto.
  - cbn [monitoring_loop].
    destruct (loop_body_at_buffer_start BUFSIZ ctx st st' w Hc Ho Hc' Ho')
      as (Hf & Ht & Hc1 & Ho1 & Hc1' & Ho1').
    destruct (loop_body BUFSIZ ctx st w) as [[f1 st1] t1].
    destruct (loop_body BUFSIZ ctx st' w) as [[f1' st1'] t1'].
    cbn [fst snd] in *. subst f1' t1'.
    destruct f1; [| cbn [fst snd]; auto].
    destruct (IH st1 st1' Hc1 Ho1 Hc1' Ho1') as (Hf2 & Ht2 & Hc2 & Ho2).
    destruct (monitoring_loop BUFSIZ ctx st1 ws) as [[f2 st2] t2].
    destruct (monitoring_loop BUFSIZ ctx st1' ws) as [[f2' st2'] t2'].
    cbn [fst snd] in *. subst f2' t2'. auto.
Qed.

(** X3 — from the moment the loop is entered, every iteration starts with
    nothing counted and the offset at 0: each record is written at the first
    byte of the buffer, so that the buffer never holds more than the
    [BUFSIZ - 1] characters one [snprintf] stores. *)
Theorem buffer_written_from_its_start
  (BUFSIZ : nat) (ctx : MonitoringThreadContext) (ws : list iteration)
  (st : loop_state) :
  msg_counter st = 0 ->
  aggr_msg_buffer_offset st = 0 ->
  (String.length (aggr_msg_buffer st) <= BUFSIZ - 1)%nat ->
  let st' := snd (fst (monitoring_loop BUFSIZ ctx st ws)) in
  msg_counter st' = 0
  /\ aggr_msg_buffer_offset st' = 0
  /\ (String.length (aggr_msg_buffer st') <= BUFSIZ - 1)%nat.
Proof.
  intros Hc Ho Hlen. cbn zeta.
  destruct (monitoring_loop_at_buffer_start BUFSIZ ctx ws st st Hc Ho Hc Ho)
    as (_ & _ & Hc' & Ho').
  split; [exact Hc' |]. split; [exact Ho' |].
  clear Hc' Ho'. revert st Hc Ho Hlen.
  induction ws as [|w ws IH]; intros st Hc Ho Hlen; [exact Hlen |].
  cbn [monitoring_loop].
  destruct (loop_body_at_buffer_start BUFSIZ ctx st st w Hc Ho Hc Ho)
    as (_ & _ & Hc1 & Ho1 & _).
  assert (String.length (aggr_msg_buffer (snd (fst (loop_body BUFSIZ ctx st w))))
          <= BUFSIZ - 1)%nat as Hlen1.
  { unfold loop_body, snprintf. rewrite Ho, !write_at_start.
    repeat match goal with
    | |- context [if ?b then _ else _] => destruct b
    | |- context [match strstr ?a ?b with _ => _ end] =>
        destruct (strstr a b) as [[|?]|]
    end;
    cbn [fst snd aggr_msg_buffer String.length]; try assumption; try lia.
    all: rewrite length_take; lia. }
  destruct (loop_body BUFSIZ ctx st w) as [[[|] st1] t1]; cbn [fst snd] in *.
  - specialize (IH st1 Hc1 Ho1 Hlen1).
    destruct (monitoring_loop BUFSIZ ctx st1 ws) as [[f2 st2] t2]. exact IH.
  - exact Hlen1.
Qed.

Lemma buffer_written_from_its_start_witness :
  let st' :=
    snd (fst (monitoring_loop glibc_BUFSIZ (context_of fully_specified 3)
                (loop_entry "stale")
                [client_sends (overlong_line +:+ LF);
                 client_sends ("cpu=0.93" +:+ LF)])) in
  msg_counter st' = 0
  /\ aggr_msg_buffer_offset st' = 0
  /\ (String.length (aggr_msg_buffer st') <= glibc_BUFSIZ - 1)%nat.
Proof.
  apply (buffer_written_from_its_start glibc_BUFSIZ (context_of fully_specified 3)
           [client_sends (overlong_line +:+ LF);
            client_sends ("cpu=0.93" +:+ LF)] (loop_entry "stale")).
  - reflexivity.
  - reflexivity.
  - vm_compute. lia.
Defined.





(** ** What ends the loop (X5) *)

(** X5 — an iteration leaves the loop in three cases only: [poll] returned
    0 or less (an interrupted [poll] included), the signal pipe is readable,
    or [accept] failed with another error than EINTR. An interrupted
    [accept], a failed [recv], a malformed or overlong line and a failure of
    the broker all lead to the next iteration. The iteration that leaves
    changes no local, forwards nothing and closes nothing. *)
Theorem loop_left_in_three_cases
  (BUFSIZ : nat) (ctx : MonitoringThreadContext) (st : loop_state) (w : iteration) :
  (fst (fst (loop_body BUFSIZ ctx st w)) = Break <-> ends_loop w = true)
  /\ (ends_loop w = true ->
      snd (fst (loop_body BUFSIZ ctx st w)) = st
      /\ forward_calls (snd (loop_body BUFSIZ ctx st w)) = 0%nat
      /\ closed_fds (snd (loop_body BUFSIZ ctx st w)) = []).
Proof.
  unfold loop_body, ends_loop, snprintf.
  repeat match goal with
  | |- context [if ?b then _ else _] => destruct b
  | |- context [match strstr ?a ?b with _ => _ end] =>
      destruct (strstr a b) as [[|?]|]
  end;
  cbn [fst snd orb andb negb];
  (split; [split; intros H; first [reflexivity | discriminate H]
          | intros H; first [discriminate H | repeat split]]).
Qed.

(** ** Records in the order they arrive (X6) *)

Lemma loop_body_posts
  (BUFSIZ : nat) (ctx : MonitoringThreadContext) (uuid : string)
  (st : loop_state) (w : iteration) :
  wf_uuid ctx = Some uuid ->
  msg_counter st = 0 -> aggr_msg_buffer_offset st = 0 ->
  receives w = true ->
  fst (fst (loop_body BUFSIZ ctx st w)) = Next
  /\ posted (snd (loop_body BUFSIZ ctx st w)) = bodies_of BUFSIZ ctx uuid w.
Proof.
  intros Huuid Hc Ho Hrecv. unfold bodies_of, batch_of.
  destruct (String.prefix "ts=" (recv_line w)) eqn:Hts; cbn [andb].
  - rewrite loop_body_valid_line by assumption.
    rewrite Hc, Ho, write_at_start.
    replace (0 + 1 =? MSG_AGGR_FACTOR) with true by (vm_compute; reflexivity).
    destruct (Nat.leb_spec
                (String.length (record_of BUFSIZ ctx w +:+ delimiter)) BUFSIZ)
      as [Hfit|Hlong].
    + replace (_ >? Z.of_nat BUFSIZ) with false
        by (symmetry; rewrite Z.gtb_ltb; apply Z.ltb_ge; lia).
      cbn [fst snd]. split; [reflexivity |].
      rewrite !posted_app, (posted_send_msg_to_mq _ _ ctx uuid Huuid).
      cbn [received posted app]. now rewrite List.app_nil_r.
    + replace (_ >? Z.of_nat BUFSIZ) with true
        by (symmetry; rewrite Z.gtb_ltb; apply Z.ltb_lt; lia).
      split; reflexivity.
  - rewrite loop_body_malformed
      by (unfold malformed; now rewrite Hrecv, Hts).
    split; reflexivity.
Qed.

(** As long as connections come in and are read, the loop goes on, and
    the bodies it posts are, in the order of the iterations, those of the C
    strings [line] holds after each [recv]. *)
Lemma bodies_in_order_of_iterations
  (BUFSIZ : nat) (ctx : MonitoringThreadContext) (uuid : string)
  (ws : list iteration) :
  wf_uuid ctx = Some uuid ->
  List.Forall (fun w => receives w = true) ws ->
  forall st : loop_state,
  msg_counter st = 0 ->
  aggr_msg_buffer_offset st = 0 ->
  fst (fst (monitoring_loop BUFSIZ ctx st ws)) = Next
  /\ posted (snd (monitoring_loop BUFSIZ ctx st ws))
     = List.flat_map (bodies_of BUFSIZ ctx uuid) ws.
Proof.
  intros Huuid Hall. induction Hall as [|w ws Hw Hws IH]; intros st Hc Ho.
  - split; reflexivity.
  - cbn [monitoring_loop List.flat_map].
    destruct (loop_body_posts BUFSIZ ctx uuid st w Huuid Hc Ho Hw) as [Hf Hp].
    destruct (loop_body_at_buffer_start BUFSIZ ctx st st w Hc Ho Hc Ho)
      as (_ & _ & Hc1 & Ho1 & _).
    destruct (loop_body BUFSIZ ctx st w) as [[f1 st1] t1].
    cbn [fst snd] in *. subst f1.
    destruct (IH st1 Hc1 Ho1) as [Hf2 Hp2].
    destruct (monitoring_loop BUFSIZ ctx st1 ws) as [[f2 st2] t2].
    cbn [fst snd] in *. split; [exact Hf2 |].
    now rewrite posted_app, Hp, Hp2.
Qed.

Lemma bodies_of_iteration_of
  (BUFSIZ : nat) (ctx : MonitoringThreadContext) (uuid : string)
  (a : arrival) (n m : Z) (line : string) :
  bodies_of BUFSIZ ctx uuid (iteration_of a n line)
  = bodies_of BUFSIZ ctx uuid (iteration_of a m line).
Proof. reflexivity. Qed.

(** X6 — while every connection is accepted and delivers, in the bytes
    [recv] stores, a line feed or a terminator, the loop goes on whatever
    [line] held at the start, and the bodies it posts are, in the order of
    the connections, one envelope for each connection whose first line
    begins with [ts=] and whose record fits with its delimiter, when
    libcurl gave a handle for it: a batch of that one record, never
    reordered, never merged with another. *)
Theorem lines_forwarded_in_arrival_order
  (BUFSIZ : nat) (ctx : MonitoringThreadContext) (uuid : string)
  (arrivals : list arrival) (st : loop_state) (raw : string) :
  wf_uuid ctx = Some uuid ->
  List.Forall (fun a => own_line BUFSIZ a <> None) arrivals ->
  msg_counter st = 0 ->
  aggr_msg_buffer_offset st = 0 ->
  exists st' raw' t,
    relay_loop BUFSIZ ctx st raw arrivals = Some (Next, st', raw', t)
    /\ posted t = List.flat_map (bodies_of_arrival BUFSIZ ctx uuid) arrivals.
Proof.
  intros Huuid Hall. revert st raw.
  induction Hall as [|a arrivals Ha Hrest IH]; intros st raw Hc Ho.
  - eexists _, _, _. split; reflexivity.
  - cbn [relay_loop List.flat_map]. unfold bodies_of_arrival at 1.
    destruct (own_line BUFSIZ a) as [line|] eqn:Hown; [| congruence].
    destruct (line_step_own_line BUFSIZ raw a line Hown)
      as (n & raw1 & Hstep & Hrecv).
    rewrite Hstep.
    destruct (loop_body_posts BUFSIZ ctx uuid st (iteration_of a n line)
                Huuid Hc Ho Hrecv) as [Hf Hp].
    destruct (loop_body_at_buffer_start BUFSIZ ctx st st (iteration_of a n line)
                Hc Ho Hc Ho) as (_ & _ & Hc1 & Ho1 & _).
    destruct (loop_body BUFSIZ ctx st (iteration_of a n line)) as [[f1 st1] t1].
    cbn [fst snd] in *. subst f1.
    destruct (IH st1 raw1 Hc1 Ho1) as (st2 & raw2 & t2 & Hrun & Hp2).
    rewrite Hrun. eexists _, _, _. split; [reflexivity |].
    rewrite posted_app, Hp, Hp2.
    now rewrite (bodies_of_iteration_of BUFSIZ ctx uuid a n 0 line).
Qed.

Lemma lines_forwarded_in_arrival_order_witness :
  exists st' raw' t,
    relay_loop glibc_BUFSIZ (context_of fully_specified 3) (loop_entry "stale")
      (filler glibc_BUFSIZ "x")
      [connection (heartbeat +:+ LF);
       connection ("cpu=0.93 ts=1476" +:+ LF);
       connection ("ts=1477 event=exit" +:+ LF +:+ "ts=1478 event=late")]
    = Some (Next, st', raw', t)
    /\ posted t
       = List.flat_map
           (bodies_of_arrival glibc_BUFSIZ (context_of fully_specified 3) "7a3c")
           [connection (heartbeat +:+ LF);
            connection ("cpu=0.93 ts=1476" +:+ LF);
            connection ("ts=1477 event=exit" +:+ LF +:+ "ts=1478 event=late")].
Proof.
  apply (lines_forwarded_in_arrival_order glibc_BUFSIZ
           (context_of fully_specified 3) "7a3c"
           [connection (heartbeat +:+ LF);
            connection ("cpu=0.93 ts=1476" +:+ LF);
            connection ("ts=1477 event=exit" +:+ LF +:+ "ts=1478 event=late")]
           (loop_entry "stale") (filler glibc_BUFSIZ "x")).
  - reflexivity.
  - repeat (constructor; [vm_compute; discriminate |]). constructor.
  - reflexivity.
  - reflexivity.
Defined.

(** ** The listening socket (X7) *)

Lemma loop_body_closes_only_accepted
  (BUFSIZ : nat) (ctx : MonitoringThreadContext) (st : loop_state) (w : iteration)
  (fd : Z) :
  List.In fd (closed_fds (snd (loop_body BUFSIZ ctx st w))) -> fd = accept_ret w.
Proof.
  destruct (send_msg_to_mq_no_descriptor (curl w)
              (write_at (aggr_msg_buffer st) (aggr_msg_buffer_offset st)
                 (take (BUFSIZ - 1)
                    (format aggregate_format
                       [ArgS (Some (enrich BUFSIZ ctx (cut_at_newline (recv_line w))))])))
              ctx) as [_ Hclo].
  unfold loop_body, snprintf.
  repeat match goal with
  | |- context [if ?b then _ else _] => destruct b
  | |- context [match strstr ?a ?b with _ => _ end] =>
      destruct (strstr a b) as [[|?]|]
  end;
  cbn [fst snd app closed_fds];
  rewrite ?closed_fds_app, ?Hclo; cbn [app closed_fds List.In];
  intros H; repeat destruct H as [H|H]; try contradiction; now subst.
Qed.

Lemma monitoring_loop_closes_only_accepted
  (BUFSIZ : nat) (ctx : MonitoringThreadContext) (ws : list iteration) (fd : Z) :
  forall st : loop_state,
  List.In fd (closed_fds (snd (monitoring_loop BUFSIZ ctx st ws))) ->
  exists w, List.In w ws /\ fd = accept_ret w.
Proof.
  induction ws as [|w ws IH]; intros st; [intros [] |].
  cbn [monitoring_loop].
  pose proof (loop_body_closes_only_accepted BUFSIZ ctx st w fd) as Hstep.
  destruct (loop_body BUFSIZ ctx st w) as [[[|] st1] t1]; cbn [snd] in *.
  - specialize (IH st1).
    destruct (monitoring_loop BUFSIZ ctx st1 ws) as [[f st2] t2]; cbn [snd] in *.
    rewrite closed_fds_app. intros Hin. apply List.in_app_or in Hin as [Hin|Hin].
    + exists w. split; [now left | now apply Hstep].
    + destruct (IH Hin) as (w' & Hw' & ->). exists w'. split; [now right | reflexivity].
  - intros Hin. exists w. split; [now left | now apply Hstep].
Qed.

(** X7 — as long as [accept] never hands out the number of the listening
    socket, the thread closes the listening socket exactly once when it
    reaches [pthread_exit], as the first of its last four calls, and never
    when it is still in the loop. *)
Theorem listening_socket_closed_once_at_exit
  (BUFSIZ : nat) (ctx : MonitoringThreadContext) (stack : string)
  (ws : list iteration) (last : curl_answers) :
  List.Forall (fun w => accept_ret w <> socket ctx) ws ->
  let exited := fst (monitoring_thread_func BUFSIZ ctx stack ws last) in
  let t := snd (monitoring_thread_func BUFSIZ ctx stack ws last) in
  List.count_occ Z.eq_dec (closed_fds t) (socket ctx)
  = (if exited then 1%nat else 0%nat)
  /\ (exited = true ->
      exists before,
        t = before ++ released ctx
        /\ ~ List.In (socket ctx) (closed_fds before)).
Proof.
  intros Hother. cbn zeta. unfold monitoring_thread_func.
  fold (loop_entry stack).
  assert (~ List.In (socket ctx)
            (closed_fds (snd (monitoring_loop BUFSIZ ctx (loop_entry stack) ws))))
    as Hloop.
  { intros Hin.
    destruct (monitoring_loop_closes_only_accepted _ _ _ _ _ Hin) as (w & Hw & Heq).
    rewrite List.Forall_forall in Hother. now apply (Hother w Hw). }
  destruct (monitoring_loop BUFSIZ ctx (loop_entry stack) ws) as [[[|] st] t];
    cbn [fst snd] in *.
  - split; [| discriminate].
    rewrite closed_fds_app. cbn [announce closed_fds app].
    now apply List.count_occ_not_In.
  - assert (closed_fds
              (if msg_counter st >? 0
               then Printerr
                      ("[mon-thread] Sending final aggregated message with %d message(s)..."
                       +:+ LF) [Arg (ArgD (msg_counter st))]
                    :: send_msg_to_mq last (aggr_msg_buffer st) ctx
               else []) = []) as Hflush.
    { destruct (msg_counter st >? 0); [| reflexivity].
      cbn [closed_fds]. apply send_msg_to_mq_no_descriptor. }
    split.
    + unfold drain. rewrite !closed_fds_app, Hflush.
      cbn [announce closed_fds app].
      rewrite List.count_occ_app, (proj1 (List.count_occ_not_In Z.eq_dec _ _) Hloop).
      cbn [List.count_occ].
      destruct (Z.eq_dec (socket ctx) (socket ctx)); [reflexivity | congruence].
    + intros _. unfold drain.
      match goal with
      | |- context [?flush ++ [?notice; _; _; _; _]] =>
          exists (announce ctx ++ t ++ flush ++ [notice])
      end.
      split.
      * rewrite <- !List.app_assoc. reflexivity.
      * rewrite !closed_fds_app, Hflush. cbn [announce closed_fds app].
        now rewrite List.app_nil_r.
Qed.

Lemma listening_socket_closed_once_at_exit_witness :
  let exited :=
    fst (monitoring_thread_func glibc_BUFSIZ (context_of fully_specified 3) "stale"
           [client_sends (heartbeat +:+ LF); shutdown_signalled false] curl_fine) in
  let t :=
    snd (monitoring_thread_func glibc_BUFSIZ (context_of fully_specified 3) "stale"
           [client_sends (heartbeat +:+ LF); shutdown_signalled false] curl_fine) in
  List.count_occ Z.eq_dec (closed_fds t) (socket (context_of fully_specified 3))
  = (if exited then 1%nat else 0%nat)
  /\ (exited = true ->
      exists before,
        t = before ++ released (context_of fully_specified 3)
        /\ ~ List.In (socket (context_of fully_specified 3)) (closed_fds before)).
Proof.
  apply (listening_socket_closed_once_at_exit glibc_BUFSIZ
           (context_of fully_specified 3) "stale"
           [client_sends (heartbeat +:+ LF); shutdown_signalled false] curl_fine).
  repeat constructor; vm_compute; discriminate.
Defined.

(** ** The traffic with the broker (X8, X9) *)

Lemma made_of_sends_app (ctx : MonitoringThreadContext) (t1 t2 : list action) :
  made_of_sends ctx t1 -> made_of_sends ctx t2 -> made_of_sends ctx (t1 ++ t2).
Proof.
  induction 1 as [|a t Ha Ht IH|c m t Ht IH]; intros H2.
  - exact H2.
  - cbn [app]. apply made_of_other; [assumption | now apply IH].
  - rewrite <- List.app_assoc. apply made_of_send. now apply IH.
Qed.

Ltac made_of_sends :=
  cbn [app];
  repeat first
    [ apply made_of_nothing
    | apply made_of_other; [reflexivity |]
    | apply made_of_send
    | rewrite <- List.app_nil_r; apply made_of_send ].

Lemma loop_body_made_of_sends
  (BUFSIZ : nat) (ctx : MonitoringThreadContext) (st : loop_state) (w : iteration) :
  made_of_sends ctx (snd (loop_body BUFSIZ ctx st w)).
Proof.
  unfold loop_body, snprintf.
  repeat match goal with
  | |- context [if ?b then _ else _] => destruct b
  | |- context [match strstr ?a ?b with _ => _ end] =>
      destruct (strstr a b) as [[|?]|]
  end;
  cbn [fst snd]; made_of_sends.
Qed.

Lemma monitoring_loop_made_of_sends
  (BUFSIZ : nat) (ctx : MonitoringThreadContext) (ws : list iteration) :
  forall st : loop_state,
  made_of_sends ctx (snd (monitoring_loop BUFSIZ ctx st ws)).
Proof.
  induction ws as [|w ws IH]; intros st; [apply made_of_nothing |].
  cbn [monitoring_loop].
  pose proof (loop_body_made_of_sends BUFSIZ ctx st w) as Hstep.
  destruct (loop_body BUFSIZ ctx st w) as [[[|] st1] t1]; cbn [snd] in *;
    [| exact Hstep].
  specialize (IH st1).
  destruct (monitoring_loop BUFSIZ ctx st1 ws) as [[f st2] t2]; cbn [snd] in *.
  now apply made_of_sends_app.
Qed.

Lemma drain_made_of_sends
  (ctx : MonitoringThreadContext) (st : loop_state) (c : curl_answers) :
  made_of_sends ctx (drain ctx st c).
Proof.
  unfold drain. apply made_of_sends_app.
  - destruct (msg_counter st >? 0); made_of_sends.
  - made_of_sends.
Qed.

(** All the thread says to libcurl, beside the global set-up and clean-up,
    it says in calls of [send_msg_to_mq] with its own context. *)
Lemma thread_made_of_sends
  (BUFSIZ : nat) (ctx : MonitoringThreadContext) (stack : string)
  (ws : list iteration) (last : curl_answers) :
  made_of_sends ctx (snd (monitoring_thread_func BUFSIZ ctx stack ws last)).
Proof.
  unfold monitoring_thread_func.
  pose proof (monitoring_loop_made_of_sends BUFSIZ ctx ws
                {| msg_counter := 0; aggr_msg_buffer_offset := 0;
                   aggr_msg_buffer := stack |}) as Hloop.
  destruct (monitoring_loop BUFSIZ ctx _ ws) as [[[|] st] t]; cbn [snd] in *.
  - apply made_of_sends_app; [unfold announce; made_of_sends | exact Hloop].
  - apply made_of_sends_app; [unfold announce; made_of_sends |].
    apply made_of_sends_app; [exact Hloop | apply drain_made_of_sends].
Qed.

Lemma send_msg_to_mq_as_configured
  (c : curl_answers) (msg_buff : string) (ctx : MonitoringThreadContext) :
  List.Forall (as_configured ctx) (requests (send_msg_to_mq c msg_buff ctx)).
Proof.
  unfold send_msg_to_mq.
  destruct (curl_handle c); [| constructor].
  destruct (curl_result c =? CURLE_OK); cbn [app requests];
    (constructor; [repeat split | constructor]).
Qed.

(** X8 — every request the thread performs, in the loop or when draining,
    goes to the URL of its context with the credentials of its context, as a
    POST with the JSON content type, and with the verification of the
    peer's certificate and of its host name switched off. *)
Theorem every_request_as_configured
  (BUFSIZ : nat) (ctx : MonitoringThreadContext) (stack : string)
  (ws : list iteration) (last : curl_answers) :
  List.Forall (as_configured ctx)
    (requests (snd (monitoring_thread_func BUFSIZ ctx stack ws last))).
Proof.
  induction (thread_made_of_sends BUFSIZ ctx stack ws last)
    as [|a t Ha Ht IH|c m t Ht IH].
  - constructor.
  - destruct a; try discriminate Ha; exact IH.
  - rewrite requests_app. apply List.Forall_app. split; [| exact IH].
    apply send_msg_to_mq_as_configured.
Qed.

Lemma send_msg_to_mq_handle_used_and_cleaned
  (c : curl_answers) (msg_buff : string) (ctx : MonitoringThreadContext) :
  List.length (List.filter is_perform (send_msg_to_mq c msg_buff ctx))
  = List.length (List.filter is_handle (send_msg_to_mq c msg_buff ctx))
  /\ List.length (List.filter is_cleanup (send_msg_to_mq c msg_buff ctx))
     = List.length (List.filter is_handle (send_msg_to_mq c msg_buff ctx)).
Proof.
  unfold send_msg_to_mq.
  destruct (curl_handle c); [| split; reflexivity].
  destruct (curl_result c =? CURLE_OK); split; reflexivity.
Qed.

(** X9 — in any run of the thread, each handle [curl_easy_init] gave is
    used for exactly one request and cleaned up exactly once: there are as
    many requests, and as many clean-ups, as handles. A call that got no
    handle performs no request and cleans nothing up. *)
Theorem every_handle_used_once_and_cleaned
  (BUFSIZ : nat) (ctx : MonitoringThreadContext) (stack : string)
  (ws : list iteration) (last : curl_answers) :
  let t := snd (monitoring_thread_func BUFSIZ ctx stack ws last) in
  List.length (List.filter is_perform t) = List.length (List.filter is_handle t)
  /\ List.length (List.filter is_cleanup t) = List.length (List.filter is_handle t).
Proof.
  cbn zeta.
  induction (thread_made_of_sends BUFSIZ ctx stack ws last)
    as [|a t Ha Ht IH|c m t Ht IH].
  - split; reflexivity.
  - destruct a; try discriminate Ha; exact IH.
  - destruct IH as [IH1 IH2].
    destruct (send_msg_to_mq_handle_used_and_cleaned c m ctx) as [H1 H2].
    rewrite !List.filter_app, !List.length_app. lia.
Qed.

(** ** The endpoint allocator (X10, X11) *)

Lemma endpoint_cases
  (w : endpoint_answers) (host : string) (port : Z) :
  if endpoint_succeeds w then
    fst (create_ephemeral_endpoint w host port)
    = (socket_ret w, ep_hostname w, ep_port w)
    /\ closed_fds (snd (create_ephemeral_endpoint w host port)) = []
    /\ 0 <= fst (fst (fst (create_ephemeral_endpoint w host port)))
  else
    fst (create_ephemeral_endpoint w host port) = (-1, host, port).
Proof.
  unfold endpoint_succeeds, create_ephemeral_endpoint.
  destruct (Z.ltb_spec (socket_ret w) 0) as [H1|H1];
    [replace (0 <=? socket_ret w) with false
       by (symmetry; apply Z.leb_gt; lia); reflexivity |].
  replace (0 <=? socket_ret w) with true by (symmetry; apply Z.leb_le; lia).
  destruct (Z.ltb_spec (bind_ret w) 0) as [H2|H2];
    [replace (0 <=? bind_ret w) with false
       by (symmetry; apply Z.leb_gt; lia); reflexivity |].
  replace (0 <=? bind_ret w) with true by (symmetry; apply Z.leb_le; lia).
  destruct (Z.ltb_spec (listen_ret w) 0) as [H3|H3];
    [replace (0 <=? listen_ret w) with false
       by (symmetry; apply Z.leb_gt; lia); reflexivity |].
  replace (0 <=? listen_ret w) with true by (symmetry; apply Z.leb_le; lia).
  destruct (getsockname_ret w =? -1); [reflexivity |].
  destruct (gethostname_ret w =? 0); cbn [andb negb fst snd];
    [| reflexivity].
  repeat split. exact H1.
Qed.

(** X10 — the allocator hands out an endpoint exactly when [socket],
    [bind], [listen], [getsockname] and [gethostname] all succeed: it then
    returns the descriptor [socket] gave, with the host name and the port
    the system answered, and has closed nothing. Otherwise it returns -1
    and leaves both out-parameters as they were. *)
Theorem endpoint_allocated_iff_every_call_succeeds
  (w : endpoint_answers) (host : string) (port : Z) :
  if endpoint_succeeds w then
    fst (create_ephemeral_endpoint w host port)
    = (socket_ret w, ep_hostname w, ep_port w)
    /\ closed_fds (snd (create_ephemeral_endpoint w host port)) = []
    /\ 0 <= fst (fst (fst (create_ephemeral_endpoint w host port)))
  else
    fst (create_ephemeral_endpoint w host port) = (-1, host, port).
Proof. apply endpoint_cases. Qed.


(** ** Start (X12, X13, X14) *)

Lemma initialize_outcome
  (env : gmap string string) (ctx : MonitoringThreadContext) :
  fst (fst (initialize_monitoring_context env ctx))
  = match first_missing env with Some _ => -1 | None => 0 end.
Proof.
  unfold first_missing, required_keys, initialize_monitoring_context.
  cbn [List.find].
  repeat match goal with
  | |- context [getenv env ?k] => destruct (getenv env k)
  end; reflexivity.
Qed.

Lemma initialize_complete
  (env : gmap string string) (ctx : MonitoringThreadContext) :
  first_missing env = None ->
  exists ctx',
    initialize_monitoring_context env ctx = (0, ctx', [])
    /\ url ctx' = getenv env "KICKSTART_MON_ENDPOINT_URL"
    /\ credentials ctx' = getenv env "KICKSTART_MON_ENDPOINT_CREDENTIALS"
    /\ wf_uuid ctx' = getenv env "PEGASUS_WF_UUID"
    /\ wf_label ctx' = getenv env "PEGASUS_WF_LABEL"
    /\ dag_job_id ctx' = getenv env "PEGASUS_DAG_JOB_ID"
    /\ condor_job_id ctx' = getenv env "CONDOR_JOBID"
    /\ xformation ctx' = getenv env "PEGASUS_XFORMATION"
    /\ task_id ctx' = getenv env "PEGASUS_TASK_ID".
Proof.
  unfold first_missing, required_keys, initialize_monitoring_context.
  cbn [List.find].
  destruct (getenv env "KICKSTART_MON_ENDPOINT_URL"); [| discriminate].
  destruct (getenv env "KICKSTART_MON_ENDPOINT_CREDENTIALS"); [| discriminate].
  destruct (getenv env "PEGASUS_WF_UUID"); [| discriminate].
  destruct (getenv env "PEGASUS_WF_LABEL"); [| discriminate].
  destruct (getenv env "PEGASUS_DAG_JOB_ID"); [| discriminate].
  destruct (getenv env "CONDOR_JOBID"); [| discriminate].
  intros _. eexists. split; [reflexivity |]. cbn. repeat split.
Qed.

Lemma initialize_prints_no_call
  (env : gmap string string) (ctx : MonitoringThreadContext) :
  closed_fds (snd (initialize_monitoring_context env ctx)) = []
  /\ List.filter is_thread_running (snd (initialize_monitoring_context env ctx)) = [].
Proof.
  unfold initialize_monitoring_context.
  repeat match goal with
  | |- context [getenv env ?k] => destruct (getenv env k)
  end; split; reflexivity.
Qed.

Lemma endpoint_runs_no_thread
  (w : endpoint_answers) (host : string) (port : Z) :
  List.filter is_thread_running (snd (create_ephemeral_endpoint w host port)) = [].
Proof.
  unfold create_ephemeral_endpoint.
  repeat match goal with
  | |- context [if ?b then _ else _] => destruct b
  end; reflexivity.
Qed.

(** X12 — start returns 0 exactly when the endpoint was allocated, the six
    required values are defined, [pipe] did not fail and [pthread_create]
    returned 0; and exactly then a thread runs. Whether [fcntl] could set
    the close-on-exec flag on the pipe plays no part. *)
Theorem start_succeeds_iff
  (BUFSIZ : nat) (interval : Z) (w : start_answers) (env : gmap string string) :
  let result := start_monitoring_thread BUFSIZ interval w env in
  (fst (fst result) = 0
   <-> endpoint_succeeds (endpoint w) = true
       /\ first_missing env = None
       /\ 0 <= pipe_ret w
       /\ pthread_create_ret w = 0)
  /\ List.length (List.filter is_thread_running (snd result))
     = (if fst (fst result) =? 0 then 1%nat else 0%nat).
Proof.
  cbn zeta. unfold start_monitoring_thread.
  pose proof (endpoint_cases (endpoint w) (stack_host w) (stack_port w)) as Hep.
  pose proof (endpoint_runs_no_thread (endpoint w) (stack_host w) (stack_port w))
    as Hnone.
  destruct (create_ephemeral_endpoint (endpoint w) (stack_host w) (stack_port w))
    as [[[fd host] port] t_endpoint].
  cbn [fst snd] in *.
  destruct (endpoint_succeeds (endpoint w)).
  2:{ injection Hep as -> -> ->. cbn [Z.ltb Z.compare fst snd].
      split; [split; [discriminate | intros (H & _); discriminate H] |].
      rewrite List.filter_app, Hnone. reflexivity. }
  destruct Hep as (Hep & _ & Hfd). injection Hep as -> -> ->.
  replace (socket_ret (endpoint w) <? 0) with false
    by (symmetry; apply Z.ltb_ge; lia).
  rewrite initialize_after_publish.
  pose proof (initialize_outcome env calloc_context) as Hinit.
  pose proof (initialize_prints_no_call env calloc_context) as [_ Hinit_none].
  destruct (initialize_monitoring_context env calloc_context) as [[rc ctx] t_init].
  cbn [fst snd] in *.
  destruct (first_missing env) as [name|]; subst rc.
  { cbn [Z.ltb Z.compare fst snd Z.eqb].
    split; [split; [discriminate | intros (_ & H & _); discriminate H] |].
    rewrite List.filter_app, Hnone, Hinit_none. reflexivity. }
  cbn [Z.ltb Z.compare].
  destruct (Z.ltb_spec (pipe_ret w) 0) as [Hpipe|Hpipe]; cbn [fst snd].
  { replace (pipe_ret w =? 0) with false by (symmetry; apply Z.eqb_neq; lia).
    split; [split; [lia | intros (_ & _ & H & _); lia] |].
    rewrite !List.filter_app, Hnone, Hinit_none. reflexivity. }
  assert (forall fd rc,
            List.filter is_thread_running
              (SysFcntl fd rc ::
               (if rc <? 0
                then [Printerr ("WARNING: Unable to set CLOEXEC on pipe: %s" +:+ LF)
                        [Strerror (start_errno w)]]
                else [])) = []) as Hflags
    by (intros ? rc; destruct (rc <? 0); reflexivity).
  destruct (Z.eqb_spec (pthread_create_ret w) 0) as [Hthread|Hthread];
    cbn [negb fst snd].
  - split; [split; [intros _; repeat split; assumption | reflexivity] |].
    rewrite !List.filter_app, Hnone, Hinit_none, !Hflags.
    cbn [List.filter is_thread_running app]. rewrite Hthread. reflexivity.
  - replace (pthread_create_ret w =? 0) with false
      by (symmetry; now apply Z.eqb_neq).
    split; [split; [contradiction | intros (_ & _ & _ & H); contradiction] |].
    rewrite !List.filter_app, Hnone, Hinit_none, !Hflags.
    cbn [List.filter is_thread_running app].
    replace (pthread_create_ret w =? 0) with false
      by (symmetry; now apply Z.eqb_neq).
    reflexivity.
Qed.

(** X13 — start itself never closes a descriptor: once the endpoint is
    allocated, the listening socket is still open when start returns, also
    when start fails on a missing value, on [pipe] or on [pthread_create]
    and no thread is there to close it. *)
Theorem start_never_closes_the_socket
  (BUFSIZ : nat) (interval : Z) (w : start_answers) (env : gmap string string) :
  endpoint_succeeds (endpoint w) = true ->
  closed_fds (snd (start_monitoring_thread BUFSIZ interval w env)) = []
  /\ List.In (SysSocket (socket_ret (endpoint w)))
       (snd (start_monitoring_thread BUFSIZ interval w env)).
Proof.
  intros Hok. unfold start_monitoring_thread.
  pose proof (endpoint_cases (endpoint w) (stack_host w) (stack_port w)) as Hep.
  rewrite Hok in Hep.
  assert (List.In (SysSocket (socket_ret (endpoint w)))
            (snd (create_ephemeral_endpoint (endpoint w) (stack_host w)
                    (stack_port w)))) as Hsock.
  { unfold create_ephemeral_endpoint.
    repeat match goal with
    | |- context [if ?b then _ else _] => destruct b
    end; left; reflexivity. }
  destruct (create_ephemeral_endpoint (endpoint w) (stack_host w) (stack_port w))
    as [[[fd host] port] t_endpoint].
  cbn [fst snd] in *. destruct Hep as (Hep & Hclosed & Hfd).
  injection Hep as -> -> ->.
  replace (socket_ret (endpoint w) <? 0) with false
    by (symmetry; apply Z.ltb_ge; lia).
  pose proof (initialize_prints_no_call
                (publish BUFSIZ env interval (pid w) (ep_hostname (endpoint w))
                   (ep_port (endpoint w))) calloc_context) as [Hinit _].
  destruct (initialize_monitoring_context _ calloc_context) as [[rc ctx] t_init].
  cbn [fst snd] in *.
  repeat match goal with
  | |- context [if ?b then _ else _] => destruct b
  end;
  cbn [fst snd];
  (split;
   [ repeat (rewrite ?closed_fds_app, ?Hclosed, ?Hinit; cbn [closed_fds app]);
     reflexivity
   | rewrite !List.in_app_iff; tauto ]).
Qed.

Lemma start_never_closes_the_socket_witness :
  closed_fds (snd (start_monitoring_thread glibc_BUFSIZ 10 start_granted uuid_missing))
  = []
  /\ List.In (SysSocket (socket_ret (endpoint start_granted)))
       (snd (start_monitoring_thread glibc_BUFSIZ 10 start_granted uuid_missing)).
Proof.
  apply (start_never_closes_the_socket glibc_BUFSIZ 10 start_granted uuid_missing).
  reflexivity.
Defined.

(** X14 — when start returns 0, the last thing it did was to create the
    thread, and the context it gave the thread holds the listening socket
    the allocator returned and the eight identity values as the environment
    had them when start was called; the publication of the endpoint has
    changed none of them. *)
Theorem thread_started_with_identity
  (BUFSIZ : nat) (interval : Z) (w : start_answers) (env : gmap string string) :
  fst (fst (start_monitoring_thread BUFSIZ interval w env)) = 0 ->
  exists before ctx,
    snd (start_monitoring_thread BUFSIZ interval w env)
    = before ++ [PthreadCreate ctx 0]
    /\ socket ctx = socket_ret (endpoint w)
    /\ url ctx = getenv env "KICKSTART_MON_ENDPOINT_URL"
    /\ credentials ctx = getenv env "KICKSTART_MON_ENDPOINT_CREDENTIALS"
    /\ wf_uuid ctx = getenv env "PEGASUS_WF_UUID"
    /\ wf_label ctx = getenv env "PEGASUS_WF_LABEL"
    /\ dag_job_id ctx = getenv env "PEGASUS_DAG_JOB_ID"
    /\ condor_job_id ctx = getenv env "CONDOR_JOBID"
    /\ xformation ctx = getenv env "PEGASUS_XFORMATION"
    /\ task_id ctx = getenv env "PEGASUS_TASK_ID".
Proof.
  unfold start_monitoring_thread.
  pose proof (endpoint_cases (endpoint w) (stack_host w) (stack_port w)) as Hep.
  destruct (create_ephemeral_endpoint (endpoint w) (stack_host w) (stack_port w))
    as [[[fd host] port] t_endpoint].
  cbn [fst snd] in *.
  destruct (endpoint_succeeds (endpoint w));
    [| injection Hep as -> -> ->; cbn [Z.ltb Z.compare fst]; discriminate].
  destruct Hep as (Hep & _ & Hfd). injection Hep as -> -> ->.
  replace (socket_ret (endpoint w) <? 0) with false
    by (symmetry; apply Z.ltb_ge; lia).
  rewrite initialize_after_publish.
  pose proof (initialize_outcome env calloc_context) as Hinit.
  destruct (first_missing env) as [name|] eqn:Hmissing.
  { destruct (initialize_monitoring_context env calloc_context) as [[rc ctx] t_init].
    cbn [fst snd] in *. subst rc. cbn [Z.ltb Z.compare fst]. discriminate. }
  destruct (initialize_complete env calloc_context Hmissing)
    as (ctx' & -> & H1 & H2 & H3 & H4 & H5 & H6 & H7 & H8).
  cbn [Z.ltb Z.compare].
  destruct (Z.ltb_spec (pipe_ret w) 0) as [Hpipe|Hpipe]; cbn [fst snd];
    [intros; lia |].
  destruct (Z.eqb_spec (pthread_create_ret w) 0) as [Hthread|Hthread];
    cbn [negb fst snd]; [| intros; contradiction].
  intros _. rewrite Hthread.
  eexists. exists (set_socket ctx' (socket_ret (endpoint w))).
  split; [reflexivity |]. cbn. repeat split; assumption.
Qed.

Lemma thread_started_with_identity_witness :
  exists before ctx,
    snd (start_monitoring_thread glibc_BUFSIZ 10 start_granted fully_specified)
    = before ++ [PthreadCreate ctx 0]
    /\ socket ctx = socket_ret (endpoint start_granted)
    /\ url ctx = getenv fully_specified "KICKSTART_MON_ENDPOINT_URL"
    /\ credentials ctx = getenv fully_specified "KICKSTART_MON_ENDPOINT_CREDENTIALS"
    /\ wf_uuid ctx = getenv fully_specified "PEGASUS_WF_UUID"
    /\ wf_label ctx = getenv fully_specified "PEGASUS_WF_LABEL"
    /\ dag_job_id ctx = getenv fully_specified "PEGASUS_DAG_JOB_ID"
    /\ condor_job_id ctx = getenv fully_specified "CONDOR_JOBID"
    /\ xformation ctx = getenv fully_specified "PEGASUS_XFORMATION"
    /\ task_id ctx = getenv fully_specified "PEGASUS_TASK_ID".
Proof.
  apply (thread_started_with_identity glibc_BUFSIZ 10 start_granted fully_specified).
  vm_compute. reflexivity.
Defined.

(** ** From the environment to the record (X15) *)

(** X15 — with the six required and the two optional values defined, a
    line that leaves room for them is enriched into the line itself
    followed by the six tokens, in their order, each carrying the value the
    environment had for it, unchanged. *)
Theorem record_carries_the_environment
  (BUFSIZ : nat) (env : gmap string string) (fd : Z) (line : string)
  (uuid label job condor xform task : string) :
  first_missing env = None ->
  getenv env "PEGASUS_WF_UUID" = Some uuid ->
  getenv env "PEGASUS_WF_LABEL" = Some label ->
  getenv env "PEGASUS_DAG_JOB_ID" = Some job ->
  getenv env "CONDOR_JOBID" = Some condor ->
  getenv env "PEGASUS_XFORMATION" = Some xform ->
  getenv env "PEGASUS_TASK_ID" = Some task ->
  (String.length
     (line +:+ " wf_uuid=" +:+ uuid +:+ " wf_label=" +:+ label
      +:+ " dag_job_id=" +:+ job +:+ " condor_job_id=" +:+ condor
      +:+ " xformation=" +:+ xform +:+ " task_id=" +:+ task) < BUFSIZ)%nat ->
  enrich BUFSIZ (context_of env fd) line
  = line +:+ " wf_uuid=" +:+ uuid +:+ " wf_label=" +:+ label
    +:+ " dag_job_id=" +:+ job +:+ " condor_job_id=" +:+ condor
    +:+ " xformation=" +:+ xform +:+ " task_id=" +:+ task.
Proof.
  intros Hall Huuid Hlabel Hjob Hcondor Hxform Htask Hfit.
  destruct (initialize_complete env calloc_context Hall)
    as (ctx' & Hinit & _ & _ & H3 & H4 & H5 & H6 & H7 & H8).
  assert (identity_tokens (context_of env fd)
          = " wf_uuid=" +:+ uuid +:+ " wf_label=" +:+ label
            +:+ " dag_job_id=" +:+ job +:+ " condor_job_id=" +:+ condor
            +:+ " xformation=" +:+ xform +:+ " task_id=" +:+ task) as Htokens.
  { unfold identity_tokens, context_of. rewrite Hinit.
    cbn [fst snd set_socket wf_uuid wf_label dag_job_id condor_job_id
         xformation task_id].
    rewrite H3, H4, H5, H6, H7, H8, Huuid, Hlabel, Hjob, Hcondor, Hxform, Htask.
    reflexivity. }
  rewrite enrich_text, Htokens. now apply take_all; lia.
Qed.

Lemma record_carries_the_environment_witness :
  enrich glibc_BUFSIZ (context_of fully_specified 3) heartbeat
  = heartbeat +:+ " wf_uuid=" +:+ "7a3c" +:+ " wf_label=" +:+ "montage"
    +:+ " dag_job_id=" +:+ "mProject_ID01" +:+ " condor_job_id=" +:+ "42.0"
    +:+ " xformation=" +:+ "mProject" +:+ " task_id=" +:+ "ID01".
Proof.
  apply (record_carries_the_environment glibc_BUFSIZ fully_specified 3 heartbeat
           "7a3c" "montage" "mProject_ID01" "42.0" "mProject" "ID01");
    try (vm_compute; reflexivity).
  vm_compute. lia.
Defined.

(** ** What follows the first line (X16) *)




(** ** Stop (X17) *)

(** X17 — stop joins the thread and closes both ends of the signal pipe
    exactly when [write] wrote the signal, that is returned more than 0;
    otherwise it does neither and returns what [write] returned. It never
    returns more than 0, and returns 0 also when [write] returned 0 without
    having signalled anything. *)
Theorem stop_joins_only_when_signalled
  (signal_pipe : Z * Z) (w : stop_answers) :
  let result := stop_monitoring_thread signal_pipe w in
  (List.existsb is_join (snd result) = true <-> 0 < write_ret w)
  /\ List.filter is_close_pipe (snd result)
     = (if 0 <? write_ret w
        then [ClosePipe (fst signal_pipe); ClosePipe (snd signal_pipe)]
        else [])
  /\ fst result = Z.min 0 (write_ret w)
  /\ (fst result = 0 <-> 0 <= write_ret w).
Proof.
  cbn zeta. unfold stop_monitoring_thread.
  destruct (Z.leb_spec (write_ret w) 0) as [Hfail|Hok]; cbn [fst snd].
  - replace (0 <? write_ret w) with false by (symmetry; apply Z.ltb_ge; lia).
    repeat split; try lia; try discriminate.
  - replace (0 <? write_ret w) with true by (symmetry; apply Z.ltb_lt; lia).
    repeat split; try lia; try reflexivity.
Qed.

(** ** Reading the published port back (X18) *)

Lemma read_decimal_render (v : Z) : read_decimal (render (ArgD v)) = Some v.
Proof.
  unfold read_decimal, render.
  rewrite NilZero.isi.
  - cbn [option_map]. now rewrite DecimalZ.of_to.
  - destruct v; cbn [Z.to_int]; try discriminate.
    intros H. injection H as H. now apply DecimalPos.Unsigned.to_uint_nonnil in H.
  - destruct v; cbn [Z.to_int]; try discriminate.
    intros H. injection H as H. now apply DecimalPos.Unsigned.to_uint_nonnil in H.
Qed.

Lemma forallb_upto (f : Z -> bool) (n : nat) :
  forall z : Z,
  List.forallb f (upto n z) = true ->
  forall v : Z, z <= v < z + Z.of_nat n -> f v = true.
Proof.
  induction n as [|n IH]; intros z Hall v Hv; [lia |].
  cbn [upto List.forallb] in Hall. apply andb_true_iff in Hall as [Hz Hrest].
  destruct (Z.eq_dec z v) as [<-|Hne]; [exact Hz |].
  apply (IH (z + 1) Hrest). lia.
Qed.

(** Every port number is printed with at most five characters. *)
Lemma ports_take_five :
  List.forallb
    (fun port => (String.length (render (ArgD port)) <=? 5)%nat)
    (upto (Z.to_nat 65536) 0) = true.
Proof. vm_compute. reflexivity. Qed.

Lemma port_takes_five (port : Z) :
  is_port port = true -> (String.length (render (ArgD port)) <= 5)%nat.
Proof.
  intros Hport. unfold is_port in Hport. zbool.
  apply Nat.leb_le.
  generalize ports_take_five. generalize (Z.to_nat 65536), (Z2Nat.id 65536).
  intros n Hn Hall.
  apply (forallb_upto _ n 0 Hall). lia.
Qed.

Lemma decimal_whole (BUFSIZ : nat) (v : Z) :
  (String.length (render (ArgD v)) < BUFSIZ)%nat ->
  decimal BUFSIZ v = render (ArgD v).
Proof.
  intros Hfit. unfold decimal, snprintf. cbn [fst].
  change (format "%d" [ArgD v]) with (render (ArgD v) +:+ EmptyString).
  rewrite append_nil_r. apply take_all. lia.
Qed.

(** X18 — when the endpoint is allocated on a port between 0 and 65535 and
    [BUFSIZ] is at least 6, what start leaves under KICKSTART_MON_PORT is
    the port in decimal, whole, and reads back as that very port; under
    KICKSTART_MON_HOST it leaves the host name the system answered. *)
Theorem published_port_reads_back
  (BUFSIZ : nat) (interval : Z) (w : start_answers) (env : gmap string string) :
  (6 <= BUFSIZ)%nat ->
  endpoint_succeeds (endpoint w) = true ->
  is_port (ep_port (endpoint w)) = true ->
  let env' := snd (fst (start_monitoring_thread BUFSIZ interval w env)) in
  exists text,
    getenv env' "KICKSTART_MON_PORT" = Some text
    /\ read_decimal text = Some (ep_port (endpoint w))
    /\ getenv env' "KICKSTART_MON_HOST" = Some (ep_hostname (endpoint w)).
Proof.
  intros Hsize Hok Hport. cbn zeta. rewrite start_environment.
  pose proof (endpoint_cases (endpoint w) (stack_host w) (stack_port w)) as Hep.
  rewrite Hok in Hep.
  destruct (create_ephemeral_endpoint (endpoint w) (stack_host w) (stack_port w))
    as [[[fd host] port] t_endpoint].
  cbn [fst snd] in *. destruct Hep as (Hep & _ & Hfd). injection Hep as -> -> ->.
  replace (socket_ret (endpoint w) <? 0) with false
    by (symmetry; apply Z.ltb_ge; lia).
  pose proof (publish_lookup BUFSIZ env interval (pid w)
                (ep_hostname (endpoint w)) (ep_port (endpoint w))) as Hpub.
  cbn zeta in Hpub. destruct Hpub as (_ & _ & _ & Hhost & Hpub).
  exists (decimal BUFSIZ (ep_port (endpoint w))).
  split; [exact Hpub |]. split; [| exact Hhost].
  pose proof (port_takes_five _ Hport).
  rewrite decimal_whole by lia. apply read_decimal_render.
Qed.

Lemma published_port_reads_back_witness :
  let env' :=
    snd (fst (start_monitoring_thread glibc_BUFSIZ 10 start_granted fully_specified)) in
  exists text,
    getenv env' "KICKSTART_MON_PORT" = Some text
    /\ read_decimal text = Some (ep_port (endpoint start_granted))
    /\ getenv env' "KICKSTART_MON_HOST" = Some (ep_hostname (endpoint start_granted)).
Proof.
  apply (published_port_reads_back glibc_BUFSIZ 10 start_granted fully_specified).
  - vm_compute. lia.
  - reflexivity.
  - reflexivity.
Defined.

(** ** Iterations that read nothing (X19) *)

Lemma loop_body_skipped
  (BUFSIZ : nat) (ctx : MonitoringThreadContext) (st : loop_state) (w : iteration) :
  skipped w = true ->
  fst (loop_body BUFSIZ ctx st w) = (Next, st)
  /\ curl_calls (snd (loop_body BUFSIZ ctx st w)) = []
  /\ closed_fds (snd (loop_body BUFSIZ ctx st w)) = [accept_ret w].
Proof.
  intros Hw. unfold skipped in Hw.
  apply andb_true_iff in Hw as [Hw Hcase].
  apply andb_true_iff in Hw as [Hpoll Hsignal].
  unfold loop_body.
  replace (poll_ret w <=? 0) with false
    by (symmetry; apply Z.leb_gt; now apply Z.ltb_lt).
  rewrite Hsignal. cbn [negb].
  apply orb_true_iff in Hcase as [Hcase|Hcase];
    apply andb_true_iff in Hcase as [H1 H2].
  - rewrite H1, H2. repeat split.
  - replace (accept_ret w <? 0) with false
      by (symmetry; apply Z.ltb_ge; now apply Z.leb_le).
    rewrite H2. repeat split.
Qed.

(** X19 — an [accept] that was interrupted and a [recv] that failed cost
    the iteration and nothing else: the descriptor [accept] returned is
    closed, no local changes, and the run of the loop in which such an
    iteration occurs ends as the run without it does, with the same locals
    and the same traffic with the broker. *)
Theorem interrupted_accept_and_failed_recv_skipped
  (BUFSIZ : nat) (ctx : MonitoringThreadContext) (st : loop_state)
  (ws1 ws2 : list iteration) (w : iteration) :
  skipped w = true ->
  fst (monitoring_loop BUFSIZ ctx st (ws1 ++ w :: ws2))
  = fst (monitoring_loop BUFSIZ ctx st (ws1 ++ ws2))
  /\ curl_calls (snd (monitoring_loop BUFSIZ ctx st (ws1 ++ w :: ws2)))
     = curl_calls (snd (monitoring_loop BUFSIZ ctx st (ws1 ++ ws2)))
  /\ (forall st', closed_fds (snd (loop_body BUFSIZ ctx st' w)) = [accept_ret w]).
Proof.
  intros Hw.
  assert (forall st',
            closed_fds (snd (loop_body BUFSIZ ctx st' w)) = [accept_ret w])
    as Hclosed by (intros st'; now apply loop_body_skipped).
  rewrite !monitoring_loop_app.
  destruct (monitoring_loop BUFSIZ ctx st ws1) as [[[|] st1] t1];
    [| repeat split; exact Hclosed].
  cbn [monitoring_loop].
  destruct (loop_body_skipped BUFSIZ ctx st1 w Hw) as (Hst & Hcurl & _).
  destruct (loop_body BUFSIZ ctx st1 w) as [[f1 st1'] tw].
  cbn [fst snd] in *. injection Hst as -> ->.
  destruct (monitoring_loop BUFSIZ ctx st1 ws2) as [[f2 st2] t2].
  cbn [fst snd]. split; [reflexivity |]. split; [| exact Hclosed].
  now rewrite !curl_calls_app, Hcurl.
Qed.

Lemma interrupted_accept_and_failed_recv_skipped_witness :
  fst (monitoring_loop glibc_BUFSIZ (context_of fully_specified 3) emptied
         ([client_sends (heartbeat +:+ LF)] ++ recv_fails
          :: [client_sends (heartbeat +:+ LF)]))
  = fst (monitoring_loop glibc_BUFSIZ (context_of fully_specified 3) emptied
           ([client_sends (heartbeat +:+ LF)] ++ [client_sends (heartbeat +:+ LF)]))
  /\ curl_calls
       (snd (monitoring_loop glibc_BUFSIZ (context_of fully_specified 3) emptied
               ([client_sends (heartbeat +:+ LF)] ++ recv_fails
                :: [client_sends (heartbeat +:+ LF)])))
     = curl_calls
         (snd (monitoring_loop glibc_BUFSIZ (context_of fully_specified 3) emptied
                 ([client_sends (heartbeat +:+ LF)]
                  ++ [client_sends (heartbeat +:+ LF)])))
  /\ (forall st',
        closed_fds (snd (loop_body glibc_BUFSIZ (context_of fully_specified 3)
                           st' recv_fails))
        = [accept_ret recv_fails]).
Proof.
  apply (interrupted_accept_and_failed_recv_skipped glibc_BUFSIZ
           (context_of fully_specified 3) emptied
           [client_sends (heartbeat +:+ LF)] [client_sends (heartbeat +:+ LF)]
           recv_fails).
  reflexivity.
Defined.

(** ** When the thread ends (X20, X21) *)

Lemma loop_body_flow
  (BUFSIZ : nat) (ctx : MonitoringThreadContext) (st : loop_state) (w : iteration) :
  fst (fst (loop_body BUFSIZ ctx st w)) = if ends_loop w then Break else Next.
Proof.
  unfold loop_body, ends_loop, snprintf.
  destruct (poll_ret w <=? 0); [reflexivity |].
  destruct (negb (Z.land (pipe_revents w) POLLIN =? 0)); [reflexivity |].
  cbn [orb].
  destruct (accept_ret w <? 0); cbn [andb].
  - destruct (errno w =? EINTR); reflexivity.
  - repeat match goal with
    | |- context [if ?b then _ else _] => destruct b
    | |- context [match strstr ?a ?b with _ => _ end] =>
        destruct (strstr a b) as [[|?]|]
    end; reflexivity.
Qed.

(** X20 — the thread reaches [pthread_exit] exactly when one of its
    iterations meets one of the three cases that end the loop; until then it
    is in the loop, whatever clients and broker do. *)
Theorem thread_exits_iff_loop_ended
  (BUFSIZ : nat) (ctx : MonitoringThreadContext) (stack : string)
  (ws : list iteration) (last : curl_answers) :
  fst (monitoring_thread_func BUFSIZ ctx stack ws last)
  = List.existsb ends_loop ws.
Proof.
  unfold monitoring_thread_func.
  generalize {| msg_counter := 0; aggr_msg_buffer_offset := 0;
                aggr_msg_buffer := stack |}.
  induction ws as [|w ws IH]; intros st; [reflexivity |].
  cbn [monitoring_loop List.existsb].
  pose proof (loop_body_flow BUFSIZ ctx st w) as Hflow.
  destruct (loop_body BUFSIZ ctx st w) as [[f1 st1] t1]. cbn [fst] in Hflow.
  destruct (ends_loop w); subst f1; cbn [orb]; [reflexivity |].
  specialize (IH st1).
  destruct (monitoring_loop BUFSIZ ctx st1 ws) as [[[|] st2] t2]; exact IH.
Qed.

(** X21 — with the aggregation factor at 1 the send after the loop is never
    made: when the loop is left nothing is counted, so that all the thread
    does after its last iteration is print a line, close the listening
    socket, release libcurl and its context, and end. *)
Theorem nothing_left_to_send_at_exit
  (BUFSIZ : nat) (ctx : MonitoringThreadContext) (stack : string)
  (ws : list iteration) (last : curl_answers) :
  snd (monitoring_thread_func BUFSIZ ctx stack ws last)
  = announce ctx
    ++ snd (monitoring_loop BUFSIZ ctx (loop_entry stack) ws)
    ++ (if fst (monitoring_thread_func BUFSIZ ctx stack ws last)
        then Printerr ("[mon-thread] Monitoring thread exiting..." +:+ LF) []
             :: released ctx
        else []).
Proof.
  unfold monitoring_thread_func. fold (loop_entry stack).
  pose proof (nothing_pending_between_iterations BUFSIZ ctx ws (loop_entry stack)
                eq_refl) as Hnone.
  destruct (monitoring_loop BUFSIZ ctx (loop_entry stack) ws) as [[[|] st] t];
    cbn [fst snd] in *.
  - now rewrite List.app_nil_r.
  - unfold drain. rewrite Hnone. reflexivity.
Qed.
